(** * A shallow embedding of suno-unfollow.py (SunoBot)

    Python [str] values are modelled as Stdlib [string]s whose characters
    are the code points 0..255 (Latin-1); the character classes of
    Python's [re] module and of [str.strip] are written out for that range. *)

From Stdlib Require Import ZArith String Ascii.
From stdpp Require Import base gmap sets list strings.

Open Scope Z_scope.

(* ------------------------------------------------------------------ *)
(** ** User.validate_username *)

Module Validator.

Definition code (c : ascii) : Z := Z.of_nat (nat_of_ascii c).

(** Python's [str.isspace] on code points 0..255. *)
Definition is_py_space (c : ascii) : bool :=
  let n := code c in
  ((9 <=? n) && (n <=? 13)) || ((28 <=? n) && (n <=? 32))
  || (n =? 133) || (n =? 160).

(** Python's [\w] for [str] patterns on code points 0..255: alphanumeric
    characters (letters, digits and numeric characters) and underscore. *)
Definition is_py_word (c : ascii) : bool :=
  let n := code c in
  ((48 <=? n) && (n <=? 57)) || ((65 <=? n) && (n <=? 90))
  || (n =? 95) || ((97 <=? n) && (n <=? 122))
  || (n =? 170) || (n =? 178) || (n =? 179) || (n =? 181) || (n =? 185)
  || (n =? 186) || ((188 <=? n) && (n <=? 190))
  || ((192 <=? n) && (n <=? 214)) || ((216 <=? n) && (n <=? 246))
  || ((248 <=? n) && (n <=? 255)).

(** Membership in the class [[\w\-]]. *)
Definition in_class (c : ascii) : bool :=
  is_py_word c || Ascii.eqb c "-"%char.

(** [s.replace('@', '')]: every '@' is deleted. *)
Fixpoint replace_at (s : string) : string :=
  match s with
  | EmptyString => EmptyString
  | String c r => if Ascii.eqb c "@"%char then replace_at r else String c (replace_at r)
  end.

Fixpoint lstrip (s : string) : string :=
  match s with
  | EmptyString => EmptyString
  | String c r => if is_py_space c then lstrip r else s
  end.

Fixpoint rev_str (s : string) : string :=
  match s with
  | EmptyString => EmptyString
  | String c r => String.append (rev_str r) (String c EmptyString)
  end.

(** [s.strip()]: leading and trailing whitespace removed. *)
Definition strip (s : string) : string := rev_str (lstrip (rev_str (lstrip s))).

Fixpoint all_class (s : string) : bool :=
  match s with
  | EmptyString => true
  | String c r => in_class c && all_class r
  end.

(** [[\w\-]{2,30}] matching the whole of [s]. *)
Definition body_ok (s : string) : bool :=
  all_class s && (2 <=? Z.of_nat (String.length s)) && (Z.of_nat (String.length s) <=? 30).

(** [re.match(r'^[\w\-]{2,30}$', s)]: [$] matches at the end of the string
    and also just before a newline that ends it. *)
Definition regex_match (s : string) : bool :=
  body_ok s ||
  (match rev_str s with
   | String c r => Ascii.eqb c "010"%char && body_ok (rev_str r)
   | EmptyString => false
   end).

(** The argument of [validate_username]: annotated [str], but checked
    with [isinstance] at run time. *)
Inductive py_arg :=
| PStr (s : string)
| PNone
| PInt (z : Z).

Definition validate_username (a : py_arg) : bool :=
  match a with
  | PStr s =>
      if String.eqb s EmptyString then false
      else regex_match (strip (replace_at s))
  | PNone => false
  | PInt _ => false
  end.

(** The spec's reading: a leading '@'-like marker and surrounding
    whitespace are stripped, then the pattern is checked. *)
Definition drop_leading_at (s : string) : string :=
  match s with
  | String c r => if Ascii.eqb c "@"%char then r else s
  | EmptyString => EmptyString
  end.

Definition spec_clean (s : string) : string := strip (drop_leading_at (strip s)).

Definition validate_spec (s : string) : bool :=
  if String.eqb s EmptyString then false else body_ok (spec_clean s).

End Validator.

(* ------------------------------------------------------------------ *)
(** ** Observable effects shared by the collector and the driver *)

Inductive event :=
| EHarvest                      (* ensure_auth_headers: navigate and wait for headers *)
| EPost (handle : string)       (* POST /api/profiles/follow {unfollow: true, handle} *)
| EVerifySession                (* await self.verify_session(page) *)
| ESleep (secs : Z)             (* await asyncio.sleep(secs) *)
| ESleepUniform (lo hi : Z)     (* await asyncio.sleep(random.uniform(lo, hi)) *)
| EInitialHarvest               (* get_users: first navigation and header wait *)
| EFetch (page : Z)             (* fetch of /api/profiles/<type>?page=<page> *)
| ERefresh                      (* refresh_auth_headers() is entered *)
| ERefreshAttempt               (* one iteration of its retry loop *)
| EAdded (page : Z) (n : Z).    (* log "Added {new_users} users from page {current_page}" *)

(** The exception classes of the module, plus Python's built-in ones. *)
Inductive exn :=
| SessionError (msg : string)
| RateLimitError (msg : string)
| GenericException (msg : string)   (* [raise Exception(...)] *)
| ValueError.                       (* [int(...)] on a malformed string *)

(* ------------------------------------------------------------------ *)
(** ** [int(s)] on a [str] *)

Module PyInt.

Definition digit_val (c : ascii) : option Z :=
  let n := Validator.code c in
  if (48 <=? n) && (n <=? 57) then Some (n - 48) else None.

(** Decimal digits, with single underscores allowed between digits. *)
Fixpoint parse_digits (s : string) (acc : Z) (last_digit : bool) : option Z :=
  match s with
  | EmptyString => if last_digit then Some acc else None
  | String c r =>
      match digit_val c with
      | Some d => parse_digits r (acc * 10 + d) true
      | None =>
          if Ascii.eqb c "_"%char && last_digit then parse_digits r acc false
          else None
      end
  end.

(** [int(s)]: [Some n], or [None] where Python raises [ValueError]. *)
Definition parse_py_int (s : string) : option Z :=
  match Validator.strip s with
  | String c r =>
      if Ascii.eqb c "-"%char then option_map Z.opp (parse_digits r 0 false)
      else if Ascii.eqb c "+"%char then parse_digits r 0 false
      else parse_digits (String c r) 0 false
  | EmptyString => None
  end.

End PyInt.

(* ------------------------------------------------------------------ *)
(** ** Counting trace events *)

(** The number of elements of [l] satisfying [p]. *)
Fixpoint count_if {A} (p : A -> bool) (l : list A) : nat :=
  match l with
  | [] => O
  | x :: r => ((if p x then 1 else 0) + count_if p r)%nat
  end.

(* ------------------------------------------------------------------ *)
(** ** Python's [in] on strings, [str.lower()] and [str(int)] *)

Module PyStr.

Fixpoint is_prefix (p s : string) : bool :=
  match p, s with
  | EmptyString, _ => true
  | String c p', String d s' => Ascii.eqb c d && is_prefix p' s'
  | String _ _, EmptyString => false
  end.

(** [p in s] *)
Fixpoint contains (p s : string) : bool :=
  is_prefix p s ||
  match s with
  | EmptyString => false
  | String _ r => contains p r
  end.

(** [str.lower()] on code points 0..255: 'A'..'Z' and the Latin-1
    capitals 192..222 except the multiplication sign 215 move up by 32. *)
Definition lower_char (c : ascii) : ascii :=
  let n := Validator.code c in
  if ((65 <=? n) && (n <=? 90)) || ((192 <=? n) && (n <=? 222) && negb (n =? 215))
  then ascii_of_nat (Z.to_nat (n + 32)) else c.

Fixpoint lower (s : string) : string :=
  match s with
  | EmptyString => EmptyString
  | String c r => String (lower_char c) (lower r)
  end.

(** The decimal digits of [n >= 0], in front of [acc]; [fuel] bounds the
    number of digits. *)
Fixpoint dec_digits (fuel : nat) (n : Z) (acc : string) : string :=
  match fuel with
  | O => acc
  | S f =>
      let acc := String (ascii_of_nat (48 + Z.to_nat (n mod 10))) acc in
      if n <? 10 then acc else dec_digits f (n / 10) acc
  end.

(** [str(n)] for an [int]. *)
Definition str_int (n : Z) : string :=
  let digits := dec_digits (S (Z.to_nat (Z.log2 (Z.abs n)))) (Z.abs n) EmptyString in
  if n <? 0 then String "-"%char digits else digits.

End PyStr.

(* ------------------------------------------------------------------ *)
(** ** Playwright's [response.headers] *)

Module Headers.

(** [sep.join(l)] *)
Fixpoint py_join (sep : string) (l : list string) : string :=
  match l with
  | [] => EmptyString
  | [x] => x
  | x :: r => String.append x (String.append sep (py_join sep r))
  end.

(** The elements of [l] in the order of their first occurrence, leaving
    out those in [seen]: the keys of a Python dict filled from [l]. *)
Fixpoint dedup_from (seen : list string) (l : list string) : list string :=
  match l with
  | [] => []
  | x :: r =>
      if existsb (String.eqb x) seen then dedup_from seen r
      else x :: dedup_from (x :: seen) r
  end.

Definition dedup (l : list string) : list string := dedup_from [] l.

(** The values of the raw headers whose lower-cased name is [k]. *)
Fixpoint values_of (raw : list (string * string)) (k : string) : list string :=
  match raw with
  | [] => []
  | (n, v) :: r =>
      if String.eqb (PyStr.lower n) k then v :: values_of r k else values_of r k
  end.

(** The headers as the server sent them, [(name, value)] in order, become
    Playwright's [RawHeaders]: a map from [name.lower()] to the distinct
    values, and [headers] is the dict [{name: get(name)}] over its keys,
    [get] joining the values with ['\n'] for set-cookie and [', ']
    otherwise. *)
Definition headers (raw : list (string * string)) : list (string * string) :=
  map (fun k => (k, py_join (if String.eqb k "set-cookie" then String "010"%char EmptyString
                             else ", ") (dedup (values_of raw k))))
      (dedup (map (fun h => PyStr.lower (fst h)) raw)).

(** [d[k]] when [k in d] *)
Fixpoint dict_lookup (d : list (string * string)) (k : string) : option string :=
  match d with
  | [] => None
  | (k', v) :: r => if String.eqb k' k then Some v else dict_lookup r k
  end.

(** [d.get(k, default)] *)
Definition get (d : list (string * string)) (k default : string) : string :=
  match dict_lookup d k with
  | Some v => v
  | None => default
  end.

End Headers.

(* ------------------------------------------------------------------ *)
(** ** SunoBot.unfollow_user *)

Module Unfollow.

Definition MAX_RETRIES : nat := 3.

(** What one iteration of the attempt loop meets: the outcome of
    [ensure_auth_headers()], then of [page.request.post(...)]: for a
    response, its status and the headers as the server sent them, and for
    a 401 whether [verify_session] returns or raises [SessionError]. *)
Inductive attempt_outcome :=
| AHarvestTimeout          (* no header captured within 20 s *)
| AHarvestError            (* goto / wait_for_selector raised *)
| APostError               (* the POST itself raised *)
| AResponse (status : Z) (raw_headers : list (string * string)) (session_ok : bool).

(** The mock environment: the outcome of the n-th attempt of the run. *)
Definition oracle := nat -> attempt_outcome.

Record bot := mkBot {
  processed_users : gset string;
  calls : nat;
  trace : list event
}.

Definition emit (b : bot) (es : list event) : bot :=
  mkBot (processed_users b) (calls b) (trace b ++ es).

Definition tick (b : bot) : bot :=
  mkBot (processed_users b) (S (calls b)) (trace b).

Definition record_processed (u : string) (b : bot) : bot :=
  mkBot ({[u]} ∪ processed_users b) (calls b) (trace b).

(** [SunoBot.__init__]: [self.processed_users = set()]. *)
Definition fresh_bot : bot := mkBot ∅ 0 [].

(** ensure_auth_headers(): [SessionError] when nothing is captured,
    a generic exception when navigation fails. *)
Definition ensure_auth_headers (o : attempt_outcome) : option exn :=
  match o with
  | AHarvestTimeout => Some (SessionError "Failed to capture auth headers")
  | AHarvestError => Some (GenericException "navigation failed")
  | _ => None
  end.

(** [for attempt in range(self.MAX_RETRIES)]; [fuel] is the number of
    iterations left, [attempt] the loop variable. *)
Fixpoint attempt_loop (orc : oracle) (username : string)
    (attempt fuel : nat) (b : bot) : bool * bot :=
  match fuel with
  | O => (false, b)
  | S fuel' =>
      let o := orc (calls b) in
      let b := tick b in
      let not_last := Nat.ltb attempt (MAX_RETRIES - 1) in
      (* both [except SessionError] and [except Exception] *)
      let on_error b :=
        if not_last
        then attempt_loop orc username (S attempt) fuel' (emit b [ESleepUniform 15 30])
        else (false, b) in
      match ensure_auth_headers o with
      | Some _ => on_error (emit b [EHarvest])
      | None =>
          let b := emit b [EHarvest; EPost username] in
          match o with
          | AResponse status hs ok =>
              if status =? 204 then
                (true, emit (record_processed username b) [ESleepUniform 30 60])
              else if status =? 401 then
                let b := emit b [EVerifySession] in
                if ok then attempt_loop orc username (S attempt) fuel' b
                else on_error b
              else if status =? 429 then
                (* int(response.headers.get('Retry-After', '60')) *)
                match PyInt.parse_py_int (Headers.get (Headers.headers hs) "Retry-After" "60") with
                | Some n => attempt_loop orc username (S attempt) fuel' (emit b [ESleep n])
                | None => on_error b
                end
              else if not_last
              then attempt_loop orc username (S attempt) fuel' (emit b [ESleepUniform 10 15])
              else (false, b)
          | _ => on_error b
          end
      end
  end.

Definition unfollow_user (orc : oracle) (username : string) (b : bot) : bool * bot :=
  if decide (username ∈ processed_users b) then (true, b)
  else attempt_loop orc username 0 MAX_RETRIES b.

End Unfollow.

(* ------------------------------------------------------------------ *)
(** ** SunoBot.find_and_unfollow_nonreciprocal *)

Module Run.
Import Unfollow.

(** [{user.username for user in users}] over the list returned by [get_users]. *)
Definition usernames (users : list string) : gset string := list_to_set users.

(** [users_to_unfollow = following_usernames - follower_usernames] *)
Definition reconcile (following followers : list string) : gset string :=
  usernames following ∖ usernames followers.

Fixpoint py_join_nl (l : list string) : string :=
  match l with
  | [] => EmptyString
  | [x] => x
  | x :: r => String.append x (String "010"%char (py_join_nl r))
  end.

Record run_state := mkRun {
  rbot : bot;
  ledger : string      (* contents of unfollow_progress.txt *)
}.

Definition chunk_size : nat := 5.

(** The inner [for username in chunk]: on success the handle is appended
    to the progress file as ['\n' + username]. *)
Fixpoint run_chunk (orc : oracle) (chunk : list string) (st : run_state) : run_state :=
  match chunk with
  | [] => st
  | u :: rest =>
      let (ok, b') := unfollow_user orc u (rbot st) in
      let led := if ok then String.append (ledger st) (String "010"%char u) else ledger st in
      run_chunk orc rest (mkRun b' led)
  end.

(** [for i in range(0, len(users_to_unfollow), chunk_size)]; [fuel] bounds
    the number of chunks. *)
Fixpoint run_chunks (orc : oracle) (fuel i : nat) (targets : list string)
    (st : run_state) : run_state :=
  match fuel with
  | O => st
  | S fuel' =>
      if Nat.ltb i (length targets) then
        let st := run_chunk orc (firstn chunk_size (skipn i targets)) st in
        let st := if Nat.ltb (i + chunk_size) (length targets)
                  then mkRun (emit (rbot st) [ESleepUniform 60 120]) (ledger st)
                  else st in
        run_chunks orc fuel' (i + chunk_size) targets st
      else st
  end.

(** [list(users_to_unfollow)]: Python's set iteration order is
    unspecified; [elements] stands for it. *)
Definition target_order (following followers : list string) : list string :=
  elements (reconcile following followers).

(** The part of [find_and_unfollow_nonreciprocal] after both [get_users]
    calls: the progress file is opened with ['w'] and receives
    ['\n'.join(self.processed_users)], then the chunks are processed.
    The previous contents of the file are discarded, never read. *)
Definition find_and_unfollow (orc : oracle) (following followers : list string)
    (b : bot) (old_ledger : string) : run_state :=
  let targets := target_order following followers in
  let st := mkRun b (py_join_nl (elements (processed_users b))) in
  run_chunks orc (length targets) 0 targets st.

(** A run stopped by KeyboardInterrupt right after its first [k] handles:
    every success has already been appended to the file. *)
Definition find_and_unfollow_interrupted (k : nat) (orc : oracle)
    (following followers : list string) (b : bot) (old_ledger : string) : run_state :=
  let targets := firstn k (target_order following followers) in
  let st := mkRun b (py_join_nl (elements (processed_users b))) in
  run_chunks orc (length targets) 0 targets st.

(** Handles recorded in a progress file: its non-empty lines. *)
Fixpoint split_lines_acc (s : string) (cur : string) : list string :=
  match s with
  | EmptyString => [cur]
  | String c r =>
      if Ascii.eqb c "010"%char then cur :: split_lines_acc r EmptyString
      else split_lines_acc r (String.append cur (String c EmptyString))
  end.

Definition ledger_entries (s : string) : list string :=
  filter (fun x => negb (String.eqb x EmptyString)) (split_lines_acc s EmptyString).

End Run.

(* ------------------------------------------------------------------ *)
(** ** SunoBot.get_users *)

Module Collector.

Definition MAX_API_RETRIES : nat := 3.
Definition PAGE_SIZE : Z := 20.

(** The value returned by [await response.json()]: a falsy JSON value
    (null, false, 0, an empty string, list or object), a truthy value that
    is not an object, or an object with optional [num_total_profiles] and
    [profiles] keys; a profile is an object with an optional string
    [handle]. *)
Inductive response_data :=
| RFalsy
| RNonDict
| RDict (num_total_profiles : option Z) (profiles : option (list (option string))).

(** The result of one in-page [fetch]: a JSON body for an ok status,
    [HTTP error! status: <s>] for a non-ok status, or another error. *)
Inductive fetch_outcome :=
| FOk (d : response_data)
| FHttp (status : Z)
| FOther.

(** The mock listing API: it sees the pages already requested (in order)
    and the page now requested. *)
Definition api_mock := list Z -> Z -> fetch_outcome.

(** One iteration of refresh_auth_headers' [for retry in range(3)]. *)
Inductive refresh_outcome :=
| RCaptured        (* headers captured within the 20 s window *)
| RNotCaptured     (* the window elapsed without a capture *)
| RNavError.       (* goto / evaluate raised; 5 s sleep *)

Definition refresh_mock := nat -> refresh_outcome.

Record cstate := mkC {
  users : gset string;
  current_page : Z;
  total_pages : option Z;
  fetched : list Z;          (* pages requested so far, one entry per fetch *)
  refresh_calls : nat;       (* iterations of the refresh loop so far *)
  ctrace : list event
}.

Definition cemit (st : cstate) (es : list event) : cstate :=
  mkC (users st) (current_page st) (total_pages st) (fetched st)
      (refresh_calls st) (ctrace st ++ es).

Definition record_fetch (st : cstate) : cstate :=
  mkC (users st) (current_page st) (total_pages st)
      (fetched st ++ [current_page st]) (refresh_calls st)
      (ctrace st ++ [EFetch (current_page st)]).

(** [for retry in range(3)] inside refresh_auth_headers. *)
Fixpoint refresh_loop (rm : refresh_mock) (fuel : nat) (st : cstate)
    : option exn * cstate :=
  match fuel with
  | O => (Some (GenericException
                  "Failed to refresh authentication headers after 3 attempts"), st)
  | S fuel' =>
      let o := rm (refresh_calls st) in
      let st := mkC (users st) (current_page st) (total_pages st) (fetched st)
                    (S (refresh_calls st)) (ctrace st ++ [ERefreshAttempt]) in
      match o with
      | RCaptured => (None, st)
      | RNotCaptured => refresh_loop rm fuel' st
      | RNavError => refresh_loop rm fuel' (cemit st [ESleep 5])
      end
  end.

Definition refresh_auth_headers (rm : refresh_mock) (st : cstate) : option exn * cstate :=
  refresh_loop rm 3 (cemit st [ERefresh]).

Inductive fetch_result :=
| Got (d : response_data)
| Raised (e : exn)
| Exhausted.          (* the while loop ended with api_retry_count == 3 *)

(** [while api_retry_count < MAX_API_RETRIES]; [fuel] bounds the
    iterations (the count grows by one in each). *)
Fixpoint fetch_retry (api : api_mock) (rm : refresh_mock)
    (api_retry_count fuel : nat) (st : cstate) : fetch_result * cstate :=
  match fuel with
  | O => (Exhausted, st)
  | S fuel' =>
      if Nat.ltb api_retry_count MAX_API_RETRIES then
        let o := api (fetched st) (current_page st) in
        let st := record_fetch st in
        match o with
        | FOk d => (Got d, st)
        | FHttp s =>
            let count := S api_retry_count in
            if s =? 502 then fetch_retry api rm count fuel' (cemit st [ESleep 5])
            else if s =? 401 then
              match refresh_auth_headers rm st with
              | (None, st) => fetch_retry api rm count fuel' st
              | (Some e, st) => (Raised e, st)
              end
            else (Raised (GenericException "HTTP error"), st)
        | FOther => (Raised (GenericException "API call failed"), st)
        end
      else (Exhausted, st)
  end.

(** [-(-total_profiles // 20)] with Python's floor division. *)
Definition ceil_pages (total_profiles : Z) : Z := - ((- total_profiles) / PAGE_SIZE).

(** [total_pages or 1] *)
Definition page_bound (t : option Z) : Z :=
  match t with
  | None => 1
  | Some 0 => 1
  | Some n => n
  end.

(** The inner [for profile in response_data['profiles']]. *)
Definition add_profiles (ps : list (option string)) (us : gset string) : gset string :=
  fold_left (fun acc p =>
    match p with
    | Some h =>
        let cleaned := Validator.strip (Validator.replace_at h) in
        if Validator.validate_username (Validator.PStr cleaned) then {[cleaned]} ∪ acc else acc
    | None => acc
    end) ps us.

Inductive cresult :=
| CDone (us : gset string)
| CErr (e : exn)
| COutOfFuel.

(** [while current_page <= (total_pages or 1)]; [fuel] bounds the
    number of iterations. *)
Fixpoint page_loop (api : api_mock) (rm : refresh_mock) (fuel : nat) (st : cstate)
    : cresult * cstate :=
  match fuel with
  | O => (COutOfFuel, st)
  | S fuel' =>
      if current_page st <=? page_bound (total_pages st) then
        match fetch_retry api rm 0 MAX_API_RETRIES st with
        | (Raised e, st) => (CErr e, st)
        | (Exhausted, st) => (CErr (GenericException "Failed to fetch page"), st)
        | (Got d, st) =>
            match d with
            | RFalsy | RNonDict => (CErr (GenericException "Invalid API response format"), st)
            | RDict nt profs =>
                let tp := match total_pages st, nt with
                          | None, Some n => Some (ceil_pages n)
                          | t, _ => t
                          end in
                match profs with
                | None => (CErr (GenericException "No profiles key in response"),
                           mkC (users st) (current_page st) tp (fetched st)
                               (refresh_calls st) (ctrace st))
                | Some ps =>
                    let previous_count := Z.of_nat (size (users st)) in
                    let us := add_profiles ps (users st) in
                    let new_users := Z.of_nat (size us) - previous_count in
                    let p := current_page st in
                    let st := mkC us p tp (fetched st) (refresh_calls st)
                                  (ctrace st ++ [EAdded p new_users]) in
                    if (new_users =? 0) && (1 <? p) then (CDone us, st)
                    else page_loop api rm fuel'
                           (mkC us (p + 1) tp (fetched st) (refresh_calls st)
                                (ctrace st ++ [ESleep 1]))
                end
            end
        end
      else (CDone (users st), st)
  end.

Definition initial_state : cstate := mkC ∅ 1 None [] 0 [].

(** get_users: the initial header capture, then the page loop.  The
    returned [List[User]] is modelled by the set of its usernames. *)
Definition get_users (api : api_mock) (rm : refresh_mock) (initial_captured : bool)
    (fuel : nat) : cresult * cstate :=
  let st := cemit initial_state [EInitialHarvest] in
  if initial_captured then page_loop api rm fuel st
  else (CErr (GenericException "Failed to capture initial authentication headers"), st).

End Collector.

(* ------------------------------------------------------------------ *)
(** ** SunoBot.cleanup *)

Module Cleanup.

(** The four attributes; [Some raises] holds an object whose [close()]
    (or [stop()]) raises when [raises] is true.  [self.browser] is only
    dropped, never closed. *)
Record resources := mkRes {
  page : option bool;
  context : option bool;
  browser : option bool;
  playwright : option bool
}.

Inductive action := APageClose | AContextClose | APlaywrightStop.

Inductive log_line := LCompleted | LError.

(** The body of the outer [try]: the exception that escapes it, if any,
    with the attributes and the calls made until then. *)
Definition cleanup_body (r : resources) : option exn * resources * list action :=
  (* page: close() inside its own try/except, then None *)
  let '(r, acts) :=
    match page r with
    | Some _ => (mkRes None (context r) (browser r) (playwright r), [APageClose])
    | None => (r, [])
    end in
  (* context: the same *)
  let '(r, acts) :=
    match context r with
    | Some _ => (mkRes (page r) None (browser r) (playwright r), acts ++ [AContextClose])
    | None => (r, acts)
    end in
  (* browser: only reset *)
  let r := mkRes (page r) (context r) None (playwright r) in
  (* playwright: stop() without a try of its own *)
  match playwright r with
  | Some true => (Some (GenericException "stop failed"), r, acts ++ [APlaywrightStop])
  | Some false => (None, mkRes (page r) (context r) (browser r) None, acts ++ [APlaywrightStop])
  | None => (None, r, acts)
  end.

(** [cleanup()]: the outer [except Exception] logs and swallows; the
    result is [None] when nothing escapes the method. *)
Definition cleanup (r : resources) : option exn * resources * list action * log_line :=
  match cleanup_body r with
  | (None, r', acts) => (None, r', acts, LCompleted)
  | (Some _, r', acts) => (None, r', acts, LError)
  end.

End Cleanup.

(* ------------------------------------------------------------------ *)
(** ** SunoBot.verify_session *)

Module Session.

Definition dq : string := String "034"%char EmptyString.

Definition login_selectors : list string := [
  ".profile-section"%string;
  String.append "[data-testid=" (String.append dq (String.append "profile" (String.append dq "]")));
  String.append "div[role=" (String.append dq (String.append "navigation" (String.append dq "]")));
  String.append "button:has-text(" (String.append dq (String.append "Following" (String.append dq ")")));
  String.append "button:has-text(" (String.append dq (String.append "My Profile" (String.append dq ")")));
  String.append "a:has-text(" (String.append dq (String.append "My Profile" (String.append dq ")")));
  String.append "div:has-text(" (String.append dq (String.append "Following" (String.append dq ")")));
  ".header-user-menu"%string;
  ".user-profile"%string ].

(** What the page does during [verify_session]. *)
Record page_env := mkPageEnv {
  goto_ok : bool;                    (* page.goto(base_url + '/me') returns *)
  found : nat -> string -> bool;     (* in round r, wait_for_selector(sel, timeout=10000)
                                        returns an element (else it raises) *)
  login_done : bool;                 (* the joined selector appears within 300 s *)
  url_after : string                 (* page.url once that wait has raised *)
}.

Inductive sevent :=
| SGoto                              (* page.goto(f"{base_url}/me") *)
| SProbe (round : nat) (sel : string)  (* page.wait_for_selector(sel, timeout=10000) *)
| SSleep (secs : Z)                  (* asyncio.sleep(secs) *)
| SWaitLogin.                        (* wait_for_selector(' ,'.join(...), timeout=300000) *)

Inductive vresult :=
| VTrue                              (* return True *)
| VRaise (e : exn).

(** [for selector in login_selectors]: [true] on the first element found. *)
Fixpoint probe_selectors (env : page_env) (round : nat) (sels : list string)
    (tr : list sevent) : bool * list sevent :=
  match sels with
  | [] => (false, tr)
  | s :: rest =>
      let tr := tr ++ [SProbe round s] in
      if found env round s then (true, tr) else probe_selectors env round rest tr
  end.

(** [for _ in range(3)], with [await asyncio.sleep(2)] after each round. *)
Fixpoint probe_rounds (env : page_env) (round fuel : nat) (tr : list sevent)
    : bool * list sevent :=
  match fuel with
  | O => (false, tr)
  | S f =>
      let '(ok, tr) := probe_selectors env round login_selectors tr in
      if ok then (true, tr) else probe_rounds env (S round) f (tr ++ [SSleep 2])
  end.

(** The outer [except Exception] re-raises a [SessionError] and turns any
    other exception (here: a failing [goto]) into
    [SessionError("Failed to verify session status")]. *)
Definition verify_session (env : page_env) : vresult * list sevent :=
  if goto_ok env then
    let '(ok, tr) := probe_rounds env 0 3 [SGoto; SSleep 2] in
    if ok then (VTrue, tr)
    else
      let tr := tr ++ [SWaitLogin] in
      if login_done env then (VTrue, tr)
      else if PyStr.contains "/me" (url_after env) || PyStr.contains "/profile" (url_after env)
      then (VTrue, tr)
      else (VRaise (SessionError "Login timeout - please try again"), tr)
  else (VRaise (SessionError "Failed to verify session status"), [SGoto]).

Definition is_probe (e : sevent) : bool :=
  match e with SProbe _ _ => true | _ => false end.

End Session.

(* ------------------------------------------------------------------ *)
(** ** SunoBot.initialize_browser *)

Module Init.

(** Which of [self.playwright], [self.browser], [self.context] are set. *)
Record bstate := mkB {
  playwright_set : bool;
  browser_set : bool;
  context_set : bool
}.

(** The outcomes of the Playwright calls; [reports_browser] is whether
    the launched context's [browser] attribute is not [None]. *)
Record launch_env := mkL {
  start_ok : bool;          (* async_playwright().start() *)
  launch_ok : bool;         (* chromium.launch_persistent_context(...) *)
  script_ok : bool;         (* context.add_init_script(...) *)
  reports_browser : bool
}.

Inductive ievent := IStart | ILaunch | IInitScript.

(** [if not self.browser or not self.context:] and its body. *)
Definition launch_step (env : launch_env) (s : bstate) (tr : list ievent)
    : option exn * bstate * list ievent :=
  if negb (browser_set s) || negb (context_set s) then
    if launch_ok env then
      let s := mkB (playwright_set s) (browser_set s) true in
      if script_ok env then
        (None, mkB (playwright_set s) (reports_browser env) true, tr ++ [ILaunch; IInitScript])
      else (Some (GenericException "add_init_script failed"), s, tr ++ [ILaunch; IInitScript])
    else (Some (GenericException "launch failed"), s, tr ++ [ILaunch])
  else (None, s, tr).

(** The [except Exception] logs and re-raises. *)
Definition initialize_browser (env : launch_env) (s : bstate)
    : option exn * bstate * list ievent :=
  if playwright_set s then launch_step env s []
  else if start_ok env then launch_step env (mkB true (browser_set s) (context_set s)) [IStart]
  else (Some (GenericException "playwright start failed"), s, [IStart]).

End Init.

(* ------------------------------------------------------------------ *)
(** ** SunoBot.browser_context *)

Module BrowserCtx.

(** What happens inside the context manager: whether [self.context] is
    set on entry, the exception [initialize_browser] raises (if called),
    whether [new_page] and [route] return, the page seen by
    [verify_session], the exception the [async with] body raises, and
    whether [page.close()] raises. *)
Record ctx_env := mkCtx {
  has_context : bool;
  init : option exn;
  new_page_ok : bool;
  route_ok : bool;
  session : Session.page_env;
  body : option exn;
  close_raises : bool
}.

Inductive bevent :=
| BInit          (* await self.initialize_browser() *)
| BNewPage       (* await self.context.new_page() *)
| BRoute         (* await page.route(images, abort) *)
| BVerify        (* await self.verify_session(page) *)
| BBody          (* yield page: the body of the async with *)
| BLogError      (* logger.error("Browser context error: ...") *)
| BClose         (* await page.close() in the finally *)
| BLogClose.     (* logger.error("Error closing page: ...") *)

(** The exception leaving the [async with] statement, if any, and the
    events in order. *)
Definition browser_context (env : ctx_env) : option exn * list bevent :=
  let tr0 := if has_context env then [] else [BInit] in
  match (if has_context env then None else init env) with
  | Some e => (Some e, tr0 ++ [BLogError])
  | None =>
      if negb (new_page_ok env) then
        (Some (GenericException "new_page failed"), tr0 ++ [BNewPage; BLogError])
      else
        let tr := tr0 ++ [BNewPage] in
        let '(e, tr) :=
          if negb (route_ok env) then
            (Some (GenericException "route failed"), tr ++ [BRoute; BLogError])
          else
            match fst (Session.verify_session (session env)) with
            | Session.VRaise e => (Some e, tr ++ [BRoute; BVerify; BLogError])
            | Session.VTrue =>
                match body env with
                | Some e => (Some e, tr ++ [BRoute; BVerify; BBody; BLogError])
                | None => (None, tr ++ [BRoute; BVerify; BBody])
                end
            end in
        (* finally: if page: close(), errors logged and swallowed *)
        (e, tr ++ [BClose] ++ (if close_raises env then [BLogClose] else []))
  end.

Definition is_close (e : bevent) : bool :=
  match e with BClose => true | _ => false end.

Definition with_close_ok (env : ctx_env) : ctx_env :=
  mkCtx (has_context env) (init env) (new_page_ok env) (route_ok env)
        (session env) (body env) false.

End BrowserCtx.

(* ------------------------------------------------------------------ *)
(** ** SunoBot.refresh_cookies *)

Module Cookies.

Definition essential_cookies : list string := ["session_id"; "auth_token"]%string.

(** [[cookie for cookie in essential_cookies
      if not any(c['name'] == cookie for c in cookies)]] *)
Definition missing_cookies (names : list string) : list string :=
  filter (fun c => negb (existsb (String.eqb c) names)) essential_cookies.

(** [cookies] is [None] when [self.context.cookies()] raises, else the
    names of the cookies.  The result is the returned bool and whether
    [verify_session] was called. *)
Definition refresh_cookies (cookies : option (list string)) (env : Session.page_env)
    : bool * bool :=
  let verified :=
    match fst (Session.verify_session env) with
    | Session.VTrue => (true, true)
    | Session.VRaise _ => (false, true)      (* caught by except Exception *)
    end in
  match cookies with
  | None => (false, false)
  | Some [] => verified
  | Some names =>
      match missing_cookies names with
      | [] => (true, false)
      | _ => verified
      end
  end.

End Cookies.

(* ------------------------------------------------------------------ *)
(** ** SunoBot.handle_rate_limit *)

Module RateLimit.

(** [int(response.headers.get('Retry-After', '60'))], 60 on [ValueError];
    [hs] are the headers of the response as the server sent them. *)
Definition retry_after_of (hs : list (string * string)) : Z :=
  match PyInt.parse_py_int (Headers.get (Headers.headers hs) "Retry-After" "60") with
  | Some n => n
  | None => 60
  end.

(** The sleep, then the exception that always ends the method. *)
Definition handle_rate_limit (hs : list (string * string)) : list event * exn :=
  let n := retry_after_of hs in
  ([ESleep n],
   RateLimitError (String.append "Rate limited. Retry after "
                     (String.append (PyStr.str_int n) " seconds"))).

End RateLimit.

(* ------------------------------------------------------------------ *)
(** ** SunoBot.run *)

Module Top.

Inductive tevent :=
| TSleep (secs : Z)      (* await asyncio.sleep(5) in the SessionError handler *)
| TCleanup.              (* await self.cleanup() in the finally *)

(** The exception leaving the [try] body: [initialize_browser()] first,
    then the [async with self.browser_context()] statement, whose body
    is [find_and_unfollow_nonreciprocal] (its exception is [body]). *)
Definition run_escaped (init_err : option exn) (env : BrowserCtx.ctx_env) : option exn :=
  match init_err with
  | Some e => Some e
  | None => fst (BrowserCtx.browser_context env)
  end.

(** [run()]: the three handlers catch every [Exception]; the finally
    calls [cleanup()], which never raises. *)
Definition run (init_err : option exn) (env : BrowserCtx.ctx_env) (r : Cleanup.resources)
    : list tevent * Cleanup.resources :=
  let tr :=
    match run_escaped init_err env with
    | Some (SessionError m) =>
        if PyStr.contains "timeout" (PyStr.lower m) then [] else [TSleep 5]
    | _ => []
    end in
  let '(_, r', _, _) := Cleanup.cleanup r in
  (tr ++ [TCleanup], r').

End Top.

Module RunView.

(** [await asyncio.sleep(random.uniform(60, 120))] between two chunks. *)
Definition is_pause (e : event) : bool :=
  match e with ESleepUniform lo hi => (lo =? 60) && (hi =? 120) | _ => false end.

Definition is_post (e : event) : bool :=
  match e with EPost _ => true | _ => false end.

(** A POST, if [e] is one, is for a handle satisfying [T]. *)
Definition posts_within (T : string -> Prop) (e : event) : Prop :=
  match e with EPost h => T h | _ => True end.

End RunView.

Module CleanView.

(** Whether [s] has no '@' left. *)
Fixpoint no_at (s : string) : bool :=
  match s with
  | EmptyString => true
  | String c r => negb (Ascii.eqb c "@"%char) && no_at r
  end.

End CleanView.

(* ------------------------------------------------------------------ *)
(** ** Scenario environments *)

(** An unfollow endpoint that answers every request with 204. *)
Definition all_204 : Unfollow.oracle := fun _ => Unfollow.AResponse 204 [] true.

(** What a run appends to the progress file for the handles [l], in order. *)
Fixpoint ledger_suffix (l : list string) : string :=
  match l with
  | [] => EmptyString
  | u :: r => String.append (String "010"%char u) (ledger_suffix r)
  end.

(** The [n] two-character handles served on page [p] of a mock listing. *)
Definition page_handles (p n : nat) : list string :=
  map (fun i => String (ascii_of_nat (96 + p)) (String (ascii_of_nat (65 + i)) EmptyString))
      (seq 0 n).

(** A listing declaring 45 profiles, with 20, 20 and 5 handles on its
    three pages. *)
Definition api45 : Collector.api_mock := fun _ p =>
  if p =? 1 then Collector.FOk (Collector.RDict (Some 45) (Some (map Some (page_handles 1 20))))
  else if p =? 2 then Collector.FOk (Collector.RDict (Some 45) (Some (map Some (page_handles 2 20))))
  else if p =? 3 then Collector.FOk (Collector.RDict (Some 45) (Some (map Some (page_handles 3 5))))
  else Collector.FHttp 404.

(** A listing API answering 401 to the first three requests and then one
    page with a single handle. *)
Definition api_three_401 : Collector.api_mock := fun hist _ =>
  if Nat.ltb (length hist) 3 then Collector.FHttp 401
  else Collector.FOk (Collector.RDict (Some 1) (Some [Some "ab"%string])).

(** A listing API answering 401 to the first request for each page. *)
Definition api_first_401 : Collector.api_mock := fun hist p =>
  if existsb (Z.eqb p) hist then Collector.FOk (Collector.RDict (Some 1) (Some [Some "ab"%string]))
  else Collector.FHttp 401.

(** A listing that declares 100 profiles (5 pages) but serves the same
    single handle on every page. *)
Definition api_repeating : Collector.api_mock := fun _ _ =>
  Collector.FOk (Collector.RDict (Some 100) (Some [Some "ab"%string])).

(** A handle that cleaning leaves unchanged and that validates. *)
Definition clean_valid (h : string) : Prop :=
  Validator.strip (Validator.replace_at h) = h /\
  Validator.validate_username (Validator.PStr h) = true.

Module TraceView.
Import Collector.

Definition is_added (e : event) : bool :=
  match e with EAdded _ _ => true | _ => false end.

Definition is_refresh (e : event) : bool :=
  match e with ERefresh => true | _ => false end.

(** The log line of a page after the first that added no user. *)
Definition is_stop (e : event) : bool :=
  match e with EAdded p n => (n =? 0) && (1 <? p) | _ => false end.

Definition no_stop (tr : list event) : Prop := Forall (fun e => is_stop e = false) tr.

(** Either no stop line is ever logged, or the last line of the trace is
    the first one and the loop returned the users collected so far. *)
Definition stop_shape (r : cresult) (st : cstate) : Prop :=
  no_stop (ctrace st) \/
  exists P x, ctrace st = P ++ [x] /\ no_stop P /\ is_stop x = true /\ r = CDone (users st).

End TraceView.

(* ================================================================== *)
(** * Properties *)

Module CountFacts.

Lemma count_if_app {A} (p : A -> bool) (a b : list A) :
  count_if p (a ++ b) = (count_if p a + count_if p b)%nat.
Proof. induction a as [|x a IH]; simpl; [reflexivity|]. rewrite IH. lia. Qed.

End CountFacts.

Module UnfollowFacts.
Import Unfollow RunView CountFacts.

Local Ltac close_shape :=
  split;
  [ eexists; split;
    [ unfold emit, tick, record_processed; simpl; rewrite <- ?app_assoc; reflexivity
    | simpl; split; [repeat constructor | split; simpl; lia] ]
  | reflexivity ].

Local Ltac step_shape IH b :=
  let E := fresh "E" in
  intros E;
  match type of E with
  | attempt_loop _ _ (S ?a) _ ?B = _ =>
      destruct (IH (S a) B _ _ E) as [[ext [Ht [Hf [Hp Hc]]]] Hu];
      split;
      [ exists (drop (length (trace b)) (trace B) ++ ext);
        rewrite Ht; unfold emit, tick; simpl; rewrite <- ?app_assoc;
        rewrite drop_app_length; split; [reflexivity|];
        rewrite !count_if_app, Hp; simpl;
        split; [repeat constructor; exact Hf | split; lia]
      | rewrite Hu; unfold emit, tick; reflexivity ]
  end.

Lemma attempt_loop_shape (orc : oracle) (u : string) (fuel : nat) :
  forall attempt b ok b', attempt_loop orc u attempt fuel b = (ok, b') ->
  (exists ext, trace b' = trace b ++ ext /\ Forall (posts_within (eq u)) ext /\
     count_if is_pause ext = 0%nat /\ (count_if is_post ext <= fuel)%nat) /\
  processed_users b' = if ok then {[u]} ∪ processed_users b else processed_users b.
Proof.
  induction fuel as [|fuel IH]; intros attempt b ok b' E.
  { injection E as <- <-. split; [exists []; rewrite app_nil_r; repeat split; constructor
                                 | reflexivity]. }
  revert E. cbn [attempt_loop].
  destruct (orc (calls b)) as [| | |status hs sok]; simpl.
  all: try (destruct (Nat.ltb attempt 2);
            [step_shape IH b | intros E; injection E as <- <-; close_shape]).
  destruct (status =? 204).
  { intros E; injection E as <- <-. close_shape. }
  destruct (status =? 401).
  { destruct sok; [step_shape IH b|].
    destruct (Nat.ltb attempt 2); [step_shape IH b | intros E; injection E as <- <-; close_shape]. }
  destruct (status =? 429).
  { destruct (PyInt.parse_py_int (Headers.get (Headers.headers hs) "Retry-After" "60")); [step_shape IH b|].
    destruct (Nat.ltb attempt 2); [step_shape IH b | intros E; injection E as <- <-; close_shape]. }
  destruct (Nat.ltb attempt 2); [step_shape IH b | intros E; injection E as <- <-; close_shape].
Qed.


Lemma unfollow_user_shape (orc : oracle) (u : string) (b : bot) :
  let '(ok, b') := unfollow_user orc u b in
  (exists ext, trace b' = trace b ++ ext /\ Forall (posts_within (eq u)) ext /\
     count_if is_pause ext = 0%nat /\ (count_if is_post ext <= MAX_RETRIES)%nat) /\
  processed_users b' = (if ok then {[u]} ∪ processed_users b else processed_users b) /\
  ok = bool_decide (u ∈ processed_users b').
Proof.
  unfold unfollow_user.
  destruct (decide (u ∈ processed_users b)) as [Hin|Hn].
  - cbv beta iota.
    split; [exists []; rewrite app_nil_r; split; [reflexivity|]; split; [constructor | simpl; lia]|].
    split; [set_solver | symmetry; apply bool_decide_true; exact Hin].
  - destruct (attempt_loop orc u 0 MAX_RETRIES b) as [ok b'] eqn:E.
    destruct (attempt_loop_shape orc u MAX_RETRIES 0 b ok b' E) as [Hs Hp].
    cbv beta iota. split; [exact Hs|]. split; [exact Hp|].
    rewrite Hp. destruct ok.
    + symmetry. apply bool_decide_true. set_solver.
    + symmetry. apply bool_decide_false. exact Hn.
Qed.

End UnfollowFacts.

(* ------------------------------------------------------------------ *)
(** ** String lemmas for the validator *)

Module ValidatorFacts.
Import Validator.

Lemma str_append_nil_r (s : string) : String.append s EmptyString = s.
Proof. induction s as [|c s IH]; [reflexivity | exact (f_equal (String c) IH)]. Qed.

Lemma str_append_assoc (a b c : string) :
  String.append (String.append a b) c = String.append a (String.append b c).
Proof. induction a as [|x a IH]; [reflexivity | exact (f_equal (String x) IH)]. Qed.

Lemma rev_str_append (a b : string) :
  rev_str (String.append a b) = String.append (rev_str b) (rev_str a).
Proof.
  induction a as [|c a IH]; simpl.
  - now rewrite str_append_nil_r.
  - rewrite IH. apply str_append_assoc.
Qed.

Lemma rev_str_involutive (s : string) : rev_str (rev_str s) = s.
Proof.
  induction s as [|c s IH]; simpl; [reflexivity|].
  rewrite rev_str_append, IH. reflexivity.
Qed.

Lemma lstrip_head (s : string) (c : ascii) (r : string) :
  lstrip s = String c r -> is_py_space c = false.
Proof.
  induction s as [|d s IH]; simpl; [discriminate|].
  destruct (is_py_space d) eqn:E; [exact IH|].
  intros H; injection H as -> ->; exact E.
Qed.

(** A stripped string never ends in a newline, so the [$]-before-newline
    alternative of [regex_match] never applies to it. *)
Lemma regex_match_stripped (s : string) :
  regex_match (strip s) = body_ok (strip s).
Proof.
  unfold regex_match, strip at 2. rewrite rev_str_involutive.
  destruct (lstrip (rev_str (lstrip s))) as [|c r] eqn:E.
  - apply Bool.orb_false_r.
  - apply lstrip_head in E.
    destruct (Ascii.eqb c "010"%char) eqn:Ec.
    + apply Ascii.eqb_eq in Ec; subst c. discriminate E.
    + simpl. apply Bool.orb_false_r.
Qed.

End ValidatorFacts.

(* ------------------------------------------------------------------ *)
(** ** Validator (C8) *)

Section ValidatorClaims.
Import Validator ValidatorFacts.

(** C8 (counterexample): the claim cleans only a leading '@' marker; the
    code deletes every '@', so ["a@b"] is accepted by the code (cleaned to
    ["ab"]) while the claim's cleaned form ["a@b"] does not match. *)
Lemma validate_username_inner_at :
  validate_username (PStr "a@b") = true /\ validate_spec "a@b" = false.
Proof. split; vm_compute; reflexivity. Qed.

(** C8 (amended): [validate_username] holds exactly for non-empty strings
    whose form with every '@' deleted and surrounding whitespace stripped
    consists of 2 to 30 characters of [[\w\-]]; the listed examples hold
    and non-string arguments give false. *)
Theorem validate_username_spec :
  (forall s : string,
     validate_username (PStr s) = true <->
     s <> EmptyString /\ body_ok (strip (replace_at s)) = true)
  /\ validate_username (PStr "@bob") = true
  /\ validate_username (PStr "bob") = true
  /\ validate_username (PStr "") = false
  /\ validate_username (PStr "a") = false
  /\ validate_username (PStr "xxxxxxxxxxxxxxxxxxxxxxxxxxxxxxx") = false
  /\ validate_username PNone = false
  /\ (forall z, validate_username (PInt z) = false).
Proof.
  split; [|repeat split; vm_compute; reflexivity].
  intros s. simpl. split.
  - intros H. destruct (String.eqb s EmptyString) eqn:E; [discriminate|].
    apply String.eqb_neq in E. split; [exact E|].
    rewrite <- regex_match_stripped. exact H.
  - intros [Hne Hb]. apply String.eqb_neq in Hne. rewrite Hne.
    rewrite regex_match_stripped. exact Hb.
Qed.

End ValidatorClaims.

(* ------------------------------------------------------------------ *)
(** ** Reconciler (C9) *)

Section ReconcileClaims.
Import Run.

(** C9: the target set is the set difference of the following and
    follower usernames, a total function: [reconcile A A = ∅],
    [reconcile A ∅ = A] and empty following lists give the empty set. *)
Theorem reconcile_set_difference :
  (forall (following followers : list string) (x : string),
     x ∈ reconcile following followers <-> x ∈ following /\ x ∉ followers)
  /\ (forall following : list string, reconcile following following = ∅)
  /\ (forall following : list string, reconcile following [] = usernames following)
  /\ (forall followers : list string, reconcile [] followers = ∅).
Proof.
  unfold reconcile, usernames. split; [|split; [|split]].
  - intros F B x. rewrite elem_of_difference, !elem_of_list_to_set. tauto.
  - intros l. set_solver.
  - intros l. simpl. set_solver.
  - intros l. simpl. set_solver.
Qed.

End ReconcileClaims.

(* ------------------------------------------------------------------ *)
Module HeaderFacts.
Import Headers.

Lemma lower_char_not_R (c : ascii) : PyStr.lower_char c <> "R"%char.
Proof.
  destruct c as [b0 b1 b2 b3 b4 b5 b6 b7].
  destruct b0, b1, b2, b3, b4, b5, b6, b7; vm_compute; congruence.
Qed.

(** No lower-cased name is ["Retry-After"]. *)
Lemma lower_not_retry_after (n : string) : PyStr.lower n <> "Retry-After"%string.
Proof.
  destruct n as [|c r]; simpl; [discriminate|].
  intros H. injection H as Hc _. exact (lower_char_not_R c Hc).
Qed.

Lemma dedup_from_in (seen l : list string) (x : string) :
  In x (dedup_from seen l) -> In x l.
Proof.
  revert seen. induction l as [|y l IH]; intros seen; simpl; [tauto|].
  destruct (existsb (String.eqb y) seen).
  - intros H. right. exact (IH _ H).
  - intros [H|H]; [left; exact H | right; exact (IH _ H)].
Qed.

Lemma dict_lookup_none (d : list (string * string)) (k : string) :
  (forall k' v, In (k', v) d -> k' <> k) -> dict_lookup d k = None.
Proof.
  induction d as [|[k' v] d IH]; intros H; simpl; [reflexivity|].
  destruct (String.eqb_spec k' k) as [E|_].
  - exfalso. exact (H k' v (or_introl eq_refl) E).
  - apply IH. intros k'' v' Hin. exact (H k'' v' (or_intror Hin)).
Qed.

(** [response.headers.get('Retry-After', '60')] is ['60'] for every
    response. *)
Lemma headers_retry_after_absent (raw : list (string * string)) :
  get (headers raw) "Retry-After" "60" = "60"%string.
Proof.
  unfold get. rewrite dict_lookup_none; [reflexivity|].
  intros k' v Hin. unfold headers in Hin.
  apply in_map_iff in Hin as [k [Heq Hk]]. injection Heq as <- _.
  apply dedup_from_in in Hk. apply in_map_iff in Hk as [[n v'] [<- _]].
  apply lower_not_retry_after.
Qed.

Lemma retry_after_is_60 (raw : list (string * string)) :
  PyInt.parse_py_int (get (headers raw) "Retry-After" "60") = Some 60.
Proof. rewrite headers_retry_after_absent. vm_compute. reflexivity. Qed.

End HeaderFacts.

(** ** Unfollow driver (C4, C5, C7) *)

Section UnfollowClaims.
Import Unfollow.

(** C5: for a handle already in [processed_users], [unfollow_user]
    returns true and leaves the bot untouched (no attempt consumed, no
    harvest, no request); a second call does the same. *)
Theorem unfollow_processed_idempotent (orc orc' : oracle) (u : string) (b : bot) :
  u ∈ processed_users b ->
  unfollow_user orc u b = (true, b) /\
  unfollow_user orc' u (snd (unfollow_user orc u b)) = (true, b).
Proof.
  intros Hin. unfold unfollow_user.
  destruct (decide (u ∈ processed_users b)) as [_|Hn]; [|contradiction].
  simpl. destruct (decide (u ∈ processed_users b)) as [_|Hn]; [|contradiction].
  split; reflexivity.
Qed.

Lemma unfollow_processed_idempotent_witness :
  "a"%string ∈ processed_users (mkBot {["a"%string]} 0 []) /\
  unfollow_user (fun _ => AResponse 204 [] true) "a" (mkBot {["a"%string]} 0 []) =
    (true, mkBot {["a"%string]} 0 []) /\
  unfollow_user (fun _ => APostError) "a"
    (snd (unfollow_user (fun _ => AResponse 204 [] true) "a" (mkBot {["a"%string]} 0 []))) =
    (true, mkBot {["a"%string]} 0 []).
Proof.
  assert (H : "a"%string ∈ processed_users (mkBot {["a"%string]} 0 [])) by (simpl; set_solver).
  split; [exact H|].
  exact (unfollow_processed_idempotent (fun _ => AResponse 204 [] true)
           (fun _ => APostError) "a" (mkBot {["a"%string]} 0 []) H).
Defined.

(** Continue with the next attempt (using the induction hypothesis), or
    leave the loop with false. *)
Local Ltac next_or_stop IH :=
  first
    [ match goal with |- context [attempt_loop _ _ (S ?a) _ ?b'] =>
        destruct (IH (S a) b') as [HA HB]; split; [exact HA | rewrite HB; reflexivity] end
    | split; reflexivity ].

Lemma attempt_loop_no_204 (orc : oracle) (u : string) (attempt fuel : nat) (b : bot) :
  (forall k ra ok, orc k <> AResponse 204 ra ok) ->
  fst (attempt_loop orc u attempt fuel b) = false /\
  processed_users (snd (attempt_loop orc u attempt fuel b)) = processed_users b.
Proof.
  intros Hno. revert attempt b. induction fuel as [|fuel IH]; intros attempt b;
    [split; reflexivity|].
  cbn [attempt_loop].
  destruct (orc (calls b)) as [| | |status hs ok] eqn:Eo; simpl;
    try (destruct (Nat.ltb attempt 2); next_or_stop IH; fail).
  destruct (status =? 204) eqn:E204.
  { apply Z.eqb_eq in E204. subst status. exfalso. exact (Hno _ _ _ Eo). }
  destruct (status =? 401).
  { destruct ok; [next_or_stop IH|].
    destruct (Nat.ltb attempt 2); next_or_stop IH. }
  destruct (status =? 429).
  { destruct (PyInt.parse_py_int (Headers.get (Headers.headers hs) "Retry-After" "60")); [next_or_stop IH|].
    destruct (Nat.ltb attempt 2); next_or_stop IH. }
  destruct (Nat.ltb attempt 2); next_or_stop IH.
Qed.

(** C4 (failing input): Playwright's [response.headers] has lower-cased
    names, so [response.headers.get('Retry-After', '60')] never finds the
    header.  A 429 is followed by a 60 s sleep and the next attempt
    whatever Retry-After the server sent: for [Retry-After: 120] the driver
    waits less than it was asked to.  The handle is recorded as processed
    only by a 204: with no 204 the call returns false and records nothing. *)
Theorem unfollow_429_ignores_retry_after (orc : oracle) (u : string)
    (attempt fuel : nat) (b : bot) (hs : list (string * string)) (ok : bool) :
  orc (calls b) = AResponse 429 hs ok ->
  attempt_loop orc u attempt (S fuel) b =
    attempt_loop orc u (S attempt) fuel (emit (tick b) [EHarvest; EPost u; ESleep 60])
  /\ (u ∉ processed_users b -> (forall k hs' ok', orc k <> AResponse 204 hs' ok') ->
      fst (unfollow_user orc u b) = false /\
      processed_users (snd (unfollow_user orc u b)) = processed_users b).
Proof.
  intros Ho. split.
  - cbn [attempt_loop]. rewrite Ho. simpl. rewrite HeaderFacts.retry_after_is_60.
    unfold emit, tick. simpl. rewrite <- app_assoc. reflexivity.
  - intros Hn Hno. unfold unfollow_user.
    destruct (decide (u ∈ processed_users b)) as [Hin|_]; [contradiction|].
    apply attempt_loop_no_204. exact Hno.
Qed.

Lemma unfollow_429_ignores_retry_after_witness :
  let orc := fun k => if Nat.eqb k 0 then AResponse 429 [("Retry-After", "120")]%string true
                      else AResponse 204 [] true in
  orc (calls fresh_bot) = AResponse 429 [("Retry-After", "120")]%string true /\
  attempt_loop orc "a" 0 3 fresh_bot =
    attempt_loop orc "a" 1 2 (emit (tick fresh_bot) [EHarvest; EPost "a"; ESleep 60]) /\
  unfollow_user orc "a" fresh_bot =
    (true, mkBot {["a"%string]} 2 [EHarvest; EPost "a"; ESleep 60;
                                  EHarvest; EPost "a"; ESleepUniform 30 60]).
Proof.
  intros orc. split; [reflexivity|]. split.
  - exact (proj1 (unfollow_429_ignores_retry_after orc "a" 0 2 fresh_bot
                    [("Retry-After", "120")]%string true eq_refl)).
  - vm_compute. reflexivity.
Defined.

End UnfollowClaims.

(* ------------------------------------------------------------------ *)
(** ** Harvest failures (C7) *)

(** C7 (failing input): when the collector's initial harvest captures
    nothing, [get_users] fails with a plain [Exception], while the unfollow
    driver's [ensure_auth_headers] raises [SessionError] in the same
    situation. *)
Theorem harvest_timeout_exception_kinds (api : Collector.api_mock)
    (rm : Collector.refresh_mock) (fuel : nat) :
  fst (Collector.get_users api rm false fuel) =
    Collector.CErr (GenericException "Failed to capture initial authentication headers")
  /\ Unfollow.ensure_auth_headers Unfollow.AHarvestTimeout =
    Some (SessionError "Failed to capture auth headers").
Proof. split; reflexivity. Qed.

(* ------------------------------------------------------------------ *)
(** ** Cleanup (C10) *)

Section CleanupClaims.
Import Cleanup.

(** C10 (failing input): with page and context already gone and a
    [playwright.stop()] that raises, [cleanup] does not raise but leaves
    [self.playwright] set; a second call calls [stop()] again. *)
Theorem cleanup_stop_failure_keeps_playwright :
  let r0 := mkRes None None None (Some true) in
  cleanup r0 = (None, r0, [APlaywrightStop], LError)
  /\ cleanup (snd (fst (fst (cleanup r0)))) = (None, r0, [APlaywrightStop], LError).
Proof. split; reflexivity. Qed.

End CleanupClaims.

(* ------------------------------------------------------------------ *)
(** ** Collector: the retry loop *)

Module RetryFacts.
Import Collector TraceView CountFacts.

Lemma refresh_loop_fields (rm : refresh_mock) (fuel : nat) (st : cstate) :
  let st' := snd (refresh_loop rm fuel st) in
  users st' = users st /\ current_page st' = current_page st /\ fetched st' = fetched st /\
  (refresh_calls st <= refresh_calls st' <= refresh_calls st + fuel)%nat.
Proof.
  revert st. induction fuel as [|f IH]; intros st; simpl; [repeat split; lia|].
  destruct (rm (refresh_calls st)); simpl.
  - repeat split; lia.
  - destruct (IH (mkC (users st) (current_page st) (total_pages st) (fetched st)
                    (S (refresh_calls st)) (ctrace st ++ [ERefreshAttempt])))
      as [H1 [H2 [H3 H4]]]. simpl in *. repeat split; try assumption; lia.
  - destruct (IH (cemit (mkC (users st) (current_page st) (total_pages st) (fetched st)
                    (S (refresh_calls st)) (ctrace st ++ [ERefreshAttempt])) [ESleep 5]))
      as [H1 [H2 [H3 H4]]]. simpl in *. repeat split; try assumption; lia.
Qed.

(** The only exception refresh_auth_headers raises. *)
Lemma refresh_loop_outcome (rm : refresh_mock) (fuel : nat) (st : cstate) :
  fst (refresh_loop rm fuel st) = None \/
  fst (refresh_loop rm fuel st) =
    Some (GenericException "Failed to refresh authentication headers after 3 attempts").
Proof.
  revert st. induction fuel as [|f IH]; intros st; simpl; [right; reflexivity|].
  destruct (rm (refresh_calls st)); [left; reflexivity | apply IH | apply IH].
Qed.

(** The refresh loop logs attempts and sleeps, never another refresh. *)
Lemma refresh_loop_no_refresh (rm : refresh_mock) (fuel : nat) (st : cstate) :
  exists ext, ctrace (snd (refresh_loop rm fuel st)) = ctrace st ++ ext /\
              count_if is_refresh ext = 0%nat.
Proof.
  revert st. induction fuel as [|f IH]; intros st; simpl.
  - exists []. rewrite app_nil_r. split; reflexivity.
  - destruct (rm (refresh_calls st)).
    + exists [ERefreshAttempt]. split; reflexivity.
    + match goal with |- context [refresh_loop rm f ?s] => destruct (IH s) as [ext [He Hc]] end.
      rewrite He. simpl. exists (ERefreshAttempt :: ext).
      rewrite <- app_assoc. split; [reflexivity | exact Hc].
    + match goal with |- context [refresh_loop rm f ?s] => destruct (IH s) as [ext [He Hc]] end.
      rewrite He. simpl. exists (ERefreshAttempt :: ESleep 5 :: ext).
      rewrite <- !app_assoc. split; [reflexivity | exact Hc].
Qed.

(** When every request for the page fails with 502 or 401, the retry loop
    ends after [3 - n] more requests, or earlier when a refresh fails. *)
Lemma fetch_retry_all_fail (api : api_mock) (rm : refresh_mock) (fuel : nat) :
  forall n st, (n <= MAX_API_RETRIES)%nat -> (MAX_API_RETRIES - n <= fuel)%nat ->
  (forall h, api h (current_page st) = FHttp 502 \/ api h (current_page st) = FHttp 401) ->
  exists k,
    fetched (snd (fetch_retry api rm n fuel st)) = fetched st ++ repeat (current_page st) k /\
    ((fst (fetch_retry api rm n fuel st) = Exhausted /\ k = (MAX_API_RETRIES - n)%nat) \/
     (fst (fetch_retry api rm n fuel st) =
        Raised (GenericException "Failed to refresh authentication headers after 3 attempts")
      /\ (1 <= k <= MAX_API_RETRIES - n)%nat)).
Proof.
  unfold MAX_API_RETRIES.
  induction fuel as [|f IH]; intros n st Hn Hf Hall; cbn [fetch_retry].
  { exists 0%nat. rewrite app_nil_r. split; [reflexivity|]. left. split; [reflexivity | lia]. }
  destruct (Nat.ltb n MAX_API_RETRIES) eqn:Hlt; unfold MAX_API_RETRIES in Hlt.
  2:{ apply Nat.ltb_ge in Hlt. exists 0%nat. rewrite app_nil_r.
      split; [reflexivity|]. left. split; [reflexivity | lia]. }
  apply Nat.ltb_lt in Hlt.
  destruct (Hall (fetched st)) as [E|E]; rewrite E; cbv beta iota;
    [rewrite Z.eqb_refl | change (401 =? 502) with false; rewrite Z.eqb_refl]; cbv iota.
  - destruct (IH (S n) (cemit (record_fetch st) [ESleep 5])) as [k [Hk Hr]];
      [lia | lia | exact Hall |].
    exists (S k). simpl in Hk. rewrite Hk, <- app_assoc. split; [reflexivity|].
    destruct Hr as [[Hr Hk']|[Hr Hk']]; [left | right]; (split; [exact Hr | lia]).
  - unfold refresh_auth_headers.
    pose proof (refresh_loop_fields rm 3 (cemit (record_fetch st) [ERefresh]))
      as [_ [R2 [R3 _]]].
    pose proof (refresh_loop_outcome rm 3 (cemit (record_fetch st) [ERefresh])) as Ro.
    destruct (refresh_loop rm 3 (cemit (record_fetch st) [ERefresh])) as [[e|] st1];
      simpl in R2, R3, Ro |- *.
    + exists 1%nat. split; [exact R3|]. right.
      destruct Ro as [Ro|Ro]; [discriminate|]. injection Ro as ->. split; [reflexivity | lia].
    + destruct (IH (S n) st1) as [k [Hk Hr]]; [lia | lia | rewrite R2; exact Hall |].
      exists (S k). rewrite Hk, R3, R2, <- app_assoc. split; [reflexivity|].
      destruct Hr as [[Hr Hk']|[Hr Hk']]; [left | right]; (split; [exact Hr | lia]).
Qed.

End RetryFacts.

(* ------------------------------------------------------------------ *)
(** ** Collector: 401 handling (C2) *)

Section AuthRetryClaims.
Import Collector TraceView CountFacts RetryFacts.

(** C2 (counterexample): 401 responses do consume the per-page retry
    count.  Three 401s on page 1, each followed by a successful refresh and
    with no 502 at all, exhaust the 3-attempt budget and abort collection. *)
Lemma collector_401_consumes_budget :
  fst (get_users api_three_401 (fun _ => RCaptured) true 5) =
    CErr (GenericException "Failed to fetch page")
  /\ fetched (snd (get_users api_three_401 (fun _ => RCaptured) true 5)) = [1; 1; 1].
Proof. split; vm_compute; reflexivity. Qed.

(** C2 (amended).  (1) A 401 on a page fetch calls refresh_auth_headers
    once; when it returns, the same page is requested again and the retry
    count grows by one; when it raises, the fetch raises its exception.
    (2) A 502 grows the same count by one.  (3) So when every request for
    a page fails with 502 or 401, in any mix, the collection aborts after
    three requests for that page, or earlier when a refresh fails.  (4)
    When a page's first request gets 401 and the next one succeeds, the
    page is obtained after exactly one refresh (however many attempts the
    refresh itself needs), with two requests of the budget of three. *)
Theorem fetch_401_refresh_same_page (api : api_mock) (rm : refresh_mock) :
  (forall (n fuel : nat) (st : cstate), (n < MAX_API_RETRIES)%nat ->
     api (fetched st) (current_page st) = FHttp 401 ->
     match refresh_auth_headers rm (record_fetch st) with
     | (None, st1) =>
         fetch_retry api rm n (S fuel) st = fetch_retry api rm (S n) fuel st1 /\
         current_page st1 = current_page st /\
         fetched st1 = fetched st ++ [current_page st]
     | (Some e, st1) => fetch_retry api rm n (S fuel) st = (Raised e, st1)
     end)
  /\ (forall (n fuel : nat) (st : cstate), (n < MAX_API_RETRIES)%nat ->
     api (fetched st) (current_page st) = FHttp 502 ->
     fetch_retry api rm n (S fuel) st =
       fetch_retry api rm (S n) fuel (cemit (record_fetch st) [ESleep 5]))
  /\ (forall (fuel : nat) (st : cstate),
     current_page st <= page_bound (total_pages st) ->
     (forall h, api h (current_page st) = FHttp 502 \/ api h (current_page st) = FHttp 401) ->
     exists e k st', page_loop api rm (S fuel) st = (CErr e, st') /\
       fetched st' = fetched st ++ repeat (current_page st) k /\
       ((e = GenericException "Failed to fetch page" /\ k = 3%nat) \/
        (e = GenericException "Failed to refresh authentication headers after 3 attempts" /\
         (1 <= k <= 3)%nat)))
  /\ (forall (st : cstate) (d : response_data),
     api (fetched st) (current_page st) = FHttp 401 ->
     api (fetched st ++ [current_page st]) (current_page st) = FOk d ->
     match refresh_auth_headers rm (record_fetch st) with
     | (None, st1) =>
         fetch_retry api rm 0 MAX_API_RETRIES st = (Got d, record_fetch st1) /\
         fetched (record_fetch st1) = fetched st ++ [current_page st; current_page st] /\
         count_if is_refresh (ctrace (record_fetch st1)) = S (count_if is_refresh (ctrace st))
     | (Some e, st1) =>
         fetch_retry api rm 0 MAX_API_RETRIES st = (Raised e, st1) /\
         fetched st1 = fetched st ++ [current_page st]
     end).
Proof.
  split; [|split; [|split]].
  - intros n fuel st Hn H401. cbn [fetch_retry].
    apply Nat.ltb_lt in Hn. rewrite Hn, H401. cbv beta iota.
    change (401 =? 502) with false. rewrite Z.eqb_refl. cbv iota.
    pose proof (refresh_loop_fields rm 3 (cemit (record_fetch st) [ERefresh]))
      as [_ [R2 [R3 _]]].
    unfold refresh_auth_headers.
    destruct (refresh_loop rm 3 (cemit (record_fetch st) [ERefresh])) as [[e|] st1];
      simpl in R2, R3 |- *; [reflexivity|].
    split; [reflexivity|]. split; assumption.
  - intros n fuel st Hn H502. cbn [fetch_retry].
    apply Nat.ltb_lt in Hn. rewrite Hn, H502. reflexivity.
  - intros fuel st Hb Hall. cbn [page_loop].
    apply Z.leb_le in Hb. rewrite Hb.
    destruct (fetch_retry_all_fail api rm MAX_API_RETRIES 0 st ltac:(unfold MAX_API_RETRIES; lia)
                ltac:(lia) Hall) as [k [Hk Hr]].
    destruct (fetch_retry api rm 0 MAX_API_RETRIES st) as [r st'].
    simpl in Hk, Hr. unfold MAX_API_RETRIES in Hr.
    destruct Hr as [[-> Hk3]|[-> Hk3]].
    + exists (GenericException "Failed to fetch page"), k, st'.
      split; [reflexivity|]. split; [exact Hk|]. left. split; [reflexivity | lia].
    + eexists _, k, st'. split; [reflexivity|]. split; [exact Hk|]. right.
      split; [reflexivity | lia].
  - intros st d H401 Hok. cbn [fetch_retry MAX_API_RETRIES Nat.ltb Nat.leb].
    rewrite H401. cbv beta iota.
    change (401 =? 502) with false. rewrite Z.eqb_refl. cbv iota.
    pose proof (refresh_loop_fields rm 3 (cemit (record_fetch st) [ERefresh]))
      as [_ [R2 [R3 _]]].
    pose proof (refresh_loop_no_refresh rm 3 (cemit (record_fetch st) [ERefresh]))
      as [ext [Rt Rc]].
    unfold refresh_auth_headers.
    destruct (refresh_loop rm 3 (cemit (record_fetch st) [ERefresh])) as [[e|] st1];
      simpl in R2, R3, Rt |- *; [split; [reflexivity | exact R3]|].
    rewrite R2, R3, Hok. cbv iota.
    split; [reflexivity|]. split.
    + unfold record_fetch. simpl. rewrite <- app_assoc. reflexivity.
    + unfold record_fetch. simpl. rewrite Rt, !count_if_app, Rc. simpl. lia.
Qed.

(** The theorem at a listing that answers 401 to each page's first
    request, with a refresh that captures the headers only on its second
    attempt, and at a listing that fails every request. *)
Lemma fetch_401_refresh_same_page_witness :
  let rm := fun k => if Nat.eqb k 0 then RNotCaptured else RCaptured in
  let d := RDict (Some 1) (Some [Some "ab"%string]) in
  let api_fail : api_mock := fun h _ =>
    if Nat.even (length h) then FHttp 502 else FHttp 401 in
  api_first_401 (fetched initial_state) (current_page initial_state) = FHttp 401 /\
  api_first_401 (fetched initial_state ++ [current_page initial_state])
    (current_page initial_state) = FOk d /\
  fetch_retry api_first_401 rm 0 MAX_API_RETRIES initial_state =
    (Got d, mkC ∅ 1 None [1; 1] 2
              [EFetch 1; ERefresh; ERefreshAttempt; ERefreshAttempt; EFetch 1]) /\
  (exists e k st', page_loop api_fail rm 5 initial_state = (CErr e, st') /\
     fetched st' = repeat 1 k /\
     ((e = GenericException "Failed to fetch page" /\ k = 3%nat) \/
      (e = GenericException "Failed to refresh authentication headers after 3 attempts" /\
       (1 <= k <= 3)%nat))).
Proof.
  intros rm d api_fail.
  destruct (fetch_401_refresh_same_page api_first_401 rm) as [_ [_ [_ H4]]].
  destruct (fetch_401_refresh_same_page api_fail rm) as [_ [_ [H3 _]]].
  split; [reflexivity|]. split; [reflexivity|]. split.
  - pose proof (H4 initial_state d eq_refl eq_refl) as H. vm_compute in H.
    exact (proj1 H).
  - exact (H3 4%nat initial_state ltac:(vm_compute; discriminate)
             (fun h => if Nat.even (length h) as b
                          return ((if b then FHttp 502 else FHttp 401) = FHttp 502 \/
                                  (if b then FHttp 502 else FHttp 401) = FHttp 401)
                       then or_introl eq_refl else or_intror eq_refl)).
Defined.

End AuthRetryClaims.

(* ------------------------------------------------------------------ *)
(** ** Collector: early stop (C6) *)

Module CollectorTrace.
Import Collector TraceView.

Lemma is_stop_added (e : event) : is_added e = false -> is_stop e = false.
Proof. destruct e; simpl; congruence. Qed.

Lemma refresh_loop_trace (rm : refresh_mock) (fuel : nat) (st : cstate) :
  exists ext, ctrace (snd (refresh_loop rm fuel st)) = ctrace st ++ ext
              /\ Forall (fun e => is_added e = false) ext.
Proof.
  revert st. induction fuel as [|fuel IH]; intros st; simpl.
  - exists []. rewrite app_nil_r. split; [reflexivity | constructor].
  - destruct (rm (refresh_calls st)).
    + simpl. eexists. split; [reflexivity|]. repeat constructor.
    + destruct (IH (mkC (users st) (current_page st) (total_pages st) (fetched st)
                        (S (refresh_calls st)) (ctrace st ++ [ERefreshAttempt])))
        as [ext [He Hf]].
      rewrite He. simpl. exists (ERefreshAttempt :: ext).
      rewrite <- app_assoc. split; [reflexivity|]. constructor; [reflexivity | exact Hf].
    + match goal with |- context [refresh_loop rm fuel ?s] =>
        destruct (IH s) as [ext [He Hf]] end.
      rewrite He. simpl. exists (ERefreshAttempt :: ESleep 5 :: ext).
      rewrite <- !app_assoc. split; [reflexivity|].
      constructor; [reflexivity|]. constructor; [reflexivity | exact Hf].
Qed.

Lemma fetch_retry_trace (api : api_mock) (rm : refresh_mock) (n fuel : nat) (st : cstate) :
  exists ext, ctrace (snd (fetch_retry api rm n fuel st)) = ctrace st ++ ext
              /\ Forall (fun e => is_added e = false) ext.
Proof.
  revert n st. induction fuel as [|fuel IH]; intros n st; simpl.
  - exists []. rewrite app_nil_r. split; [reflexivity | constructor].
  - destruct (Nat.ltb n MAX_API_RETRIES);
      [| exists []; rewrite app_nil_r; split; [reflexivity | constructor]].
    destruct (api (fetched st) (current_page st)) as [d|s|].
    + exists [EFetch (current_page st)]. split; [reflexivity | repeat constructor].
    + destruct (s =? 502).
      * match goal with |- context [fetch_retry api rm ?m fuel ?s'] =>
          destruct (IH m s') as [ext [He Hf]] end.
        rewrite He. simpl. exists (EFetch (current_page st) :: ESleep 5 :: ext).
        rewrite <- !app_assoc. split; [reflexivity|].
        constructor; [reflexivity|]. constructor; [reflexivity | exact Hf].
      * destruct (s =? 401); [| exists [EFetch (current_page st)];
                                split; [reflexivity | repeat constructor]].
        unfold refresh_auth_headers.
        destruct (refresh_loop_trace rm 3 (cemit (record_fetch st) [ERefresh]))
          as [ext1 [He1 Hf1]].
        destruct (refresh_loop rm 3 (cemit (record_fetch st) [ERefresh]))
          as [[e|] st1] eqn:Er; simpl in He1.
        -- simpl. rewrite He1. exists (EFetch (current_page st) :: ERefresh :: ext1).
           rewrite <- !app_assoc. split; [reflexivity|].
           constructor; [reflexivity|]. constructor; [reflexivity | exact Hf1].
        -- destruct (IH (S n) st1) as [ext2 [He2 Hf2]].
           rewrite He2, He1. exists (EFetch (current_page st) :: ERefresh :: ext1 ++ ext2).
           rewrite <- !app_assoc. split; [reflexivity|].
           constructor; [reflexivity|]. constructor; [reflexivity|].
           apply Forall_app; split; assumption.
    + exists [EFetch (current_page st)]. split; [reflexivity | repeat constructor].
Qed.

Lemma no_stop_app (a b : list event) : no_stop a -> no_stop b -> no_stop (a ++ b).
Proof. intros. apply Forall_app; split; assumption. Qed.

Lemma no_stop_of_not_added (ext : list event) :
  Forall (fun e => is_added e = false) ext -> no_stop ext.
Proof. intros H. eapply Forall_impl; [exact H|]. intros e. apply is_stop_added. Qed.

Lemma page_loop_stop_shape (api : api_mock) (rm : refresh_mock) (fuel : nat) (st : cstate) :
  no_stop (ctrace st) ->
  stop_shape (fst (page_loop api rm fuel st)) (snd (page_loop api rm fuel st)).
Proof.
  revert st. induction fuel as [|fuel IH]; intros st Hst; cbn -[fetch_retry];
    [left; exact Hst|].
  destruct (current_page st <=? page_bound (total_pages st)); [|left; exact Hst].
  destruct (fetch_retry_trace api rm 0 MAX_API_RETRIES st) as [ext [He Hf]].
  destruct (fetch_retry api rm 0 MAX_API_RETRIES st) as [fr st1] eqn:Ef.
  simpl in He.
  assert (H1 : no_stop (ctrace st1))
    by (rewrite He; apply no_stop_app; [exact Hst | apply no_stop_of_not_added; exact Hf]).
  destruct fr as [d|e|]; simpl; [|left; exact H1|left; exact H1].
  destruct d as [| |nt [ps|]]; simpl; try (left; exact H1).
  match goal with |- context [if ?c then _ else _] => destruct c eqn:Ec end.
  - right. simpl. eexists _, _. split; [reflexivity|]. split; [exact H1|].
    split; [simpl; exact Ec | reflexivity].
  - apply IH. simpl. apply no_stop_app; [apply no_stop_app; [exact H1|]|].
    + constructor; [exact Ec | constructor].
    + constructor; [reflexivity | constructor].
Qed.

End CollectorTrace.

(** C6: once a page after the first adds no new user (its
    "Added 0 users" line is logged), collection ends right there with the
    users collected so far: nothing follows that line in the trace, so no
    further page is requested, whatever the total page count says. *)
Theorem collector_stops_at_empty_page (api : Collector.api_mock)
    (rm : Collector.refresh_mock) (init : bool) (fuel : nat)
    (tr1 tr2 : list event) (p : Z) :
  Collector.ctrace (snd (Collector.get_users api rm init fuel)) = tr1 ++ EAdded p 0 :: tr2 ->
  1 < p ->
  tr2 = [] /\
  fst (Collector.get_users api rm init fuel) =
    Collector.CDone (Collector.users (snd (Collector.get_users api rm init fuel))).
Proof.
  intros Htr Hp.
  assert (Hs : TraceView.is_stop (EAdded p 0) = true)
    by (simpl; apply Z.ltb_lt; exact Hp).
  assert (Hnot : forall P, TraceView.no_stop P -> EAdded p 0 ∈ P -> False).
  { intros P HP Hin. unfold TraceView.no_stop in HP.
    rewrite Forall_forall in HP. rewrite (HP _ Hin) in Hs. discriminate. }
  assert (Hin : EAdded p 0 ∈ tr1 ++ EAdded p 0 :: tr2)
    by (apply elem_of_app; right; left).
  unfold Collector.get_users in *.
  destruct init.
  2:{ exfalso. simpl in Htr. destruct tr1 as [|a [|b tr1]]; simpl in Htr; discriminate. }
  destruct (CollectorTrace.page_loop_stop_shape api rm fuel
              (Collector.cemit Collector.initial_state [EInitialHarvest]))
    as [Hn | [P [x [HP [HnP [Hx Hr]]]]]].
  - unfold TraceView.no_stop. repeat constructor.
  - exfalso. rewrite Htr in Hn. exact (Hnot _ Hn Hin).
  - rewrite Htr in HP. split; [|exact Hr].
    destruct tr2 as [|y tr2'] using rev_ind; [reflexivity|].
    exfalso. rewrite app_comm_cons, app_assoc in HP.
    apply app_inj_tail in HP as [HP _].
    apply (Hnot P HnP). rewrite <- HP. apply elem_of_app. right. left.
Qed.

Lemma collector_stops_at_empty_page_witness :
  Collector.ctrace (snd (Collector.get_users api_repeating (fun _ => Collector.RCaptured) true 10)) =
    [EInitialHarvest; EFetch 1; EAdded 1 1; ESleep 1; EFetch 2] ++ EAdded 2 0 :: [] /\
  1 < 2 /\
  ([] : list event) = [] /\
  fst (Collector.get_users api_repeating (fun _ => Collector.RCaptured) true 10) =
    Collector.CDone (Collector.users
      (snd (Collector.get_users api_repeating (fun _ => Collector.RCaptured) true 10))).
Proof.
  assert (Htr : Collector.ctrace (snd (Collector.get_users api_repeating
                   (fun _ => Collector.RCaptured) true 10)) =
    [EInitialHarvest; EFetch 1; EAdded 1 1; ESleep 1; EFetch 2] ++ EAdded 2 0 :: [])
    by (vm_compute; reflexivity).
  split; [exact Htr|]. split; [lia|].
  exact (collector_stops_at_empty_page api_repeating (fun _ => Collector.RCaptured) true 10
           _ _ 2 Htr ltac:(lia)).
Defined.

(* ------------------------------------------------------------------ *)
(** ** Progress ledger (C3) *)

Module LedgerFacts.
Import Unfollow Run ValidatorFacts UnfollowFacts.

Lemma union_swap_front (A B C : gset string) : A ∪ (B ∪ C) = B ∪ A ∪ C.
Proof. set_solver. Qed.

Lemma union_empty_front (A : gset string) : A = ∅ ∪ A.
Proof. set_solver. Qed.

Lemma union_app_front (A B C : gset string) : B ∪ (A ∪ C) = A ∪ B ∪ C.
Proof. set_solver. Qed.

Lemma unfollow_all_204_fresh (u : string) (b : bot) :
  u ∉ processed_users b ->
  fst (unfollow_user all_204 u b) = true /\
  processed_users (snd (unfollow_user all_204 u b)) = {[u]} ∪ processed_users b.
Proof.
  intros Hn. unfold unfollow_user.
  destruct (decide (u ∈ processed_users b)) as [Hin|_]; [contradiction|].
  split; reflexivity.
Qed.

Lemma run_chunk_all_204 (l : list string) (st : run_state) :
  NoDup l -> (forall u, u ∈ l -> u ∉ processed_users (rbot st)) ->
  processed_users (rbot (run_chunk all_204 l st)) = list_to_set l ∪ processed_users (rbot st)
  /\ ledger (run_chunk all_204 l st) = String.append (ledger st) (ledger_suffix l).
Proof.
  revert st. induction l as [|u l IH]; intros st Hnd Hfresh; simpl.
  - split; [apply union_empty_front | symmetry; apply str_append_nil_r].
  - apply NoDup_cons in Hnd as [Hul Hnd].
    assert (Hu : u ∉ processed_users (rbot st)) by (apply Hfresh; left).
    destruct (unfollow_all_204_fresh u (rbot st) Hu) as [Hok Hp].
    destruct (unfollow_user all_204 u (rbot st)) as [ok b'] eqn:E.
    simpl in Hok, Hp. subst ok.
    destruct (IH (mkRun b' (String.append (ledger st) (String "010"%char u)))) as [IH1 IH2];
      [exact Hnd| |].
    + intros v Hv. simpl. rewrite Hp. intros Hv'.
      apply elem_of_union in Hv' as [Hv'|Hv'].
      * apply elem_of_singleton in Hv'. subst v. contradiction.
      * apply (Hfresh v); [right; exact Hv | exact Hv'].
    + split.
      * rewrite IH1. simpl. rewrite Hp. apply union_swap_front.
      * rewrite IH2. simpl. apply str_append_assoc.
Qed.

Lemma ledger_suffix_app (a b : list string) :
  ledger_suffix (a ++ b) = String.append (ledger_suffix a) (ledger_suffix b).
Proof.
  induction a as [|u a IH]; simpl; [reflexivity|].
  rewrite IH. symmetry. apply (str_append_assoc (String "010"%char u)).
Qed.

Lemma run_chunks_all_204 (t : list string) (fuel i : nat) (st : run_state) :
  (length t <= i + chunk_size * fuel)%nat ->
  NoDup (skipn i t) -> (forall u, u ∈ skipn i t -> u ∉ processed_users (rbot st)) ->
  processed_users (rbot (run_chunks all_204 fuel i t st)) =
    list_to_set (skipn i t) ∪ processed_users (rbot st)
  /\ ledger (run_chunks all_204 fuel i t st) =
    String.append (ledger st) (ledger_suffix (skipn i t)).
Proof.
  revert i st. induction fuel as [|fuel IH]; intros i st Hlen Hnd Hfresh; simpl.
  - rewrite skipn_all2 by lia. simpl.
    split; [apply union_empty_front | symmetry; apply str_append_nil_r].
  - destruct (Nat.ltb i (length t)) eqn:Hi.
    2:{ apply Nat.ltb_ge in Hi. rewrite skipn_all2 by lia. simpl.
        split; [apply union_empty_front | symmetry; apply str_append_nil_r]. }
    assert (Hsplit : skipn i t = firstn chunk_size (skipn i t) ++ skipn (i + chunk_size) t).
    { rewrite <- (firstn_skipn chunk_size (skipn i t)) at 1.
      rewrite skipn_skipn. f_equal. f_equal. lia. }
    rewrite Hsplit in Hnd.
    apply NoDup_app in Hnd as [Hnd1 [Hdisj Hnd2]].
    destruct (run_chunk_all_204 (firstn chunk_size (skipn i t)) st Hnd1) as [H1 H2].
    { intros u Hu. apply Hfresh. rewrite Hsplit. apply elem_of_app. left. exact Hu. }
    set (st1 := run_chunk all_204 (firstn chunk_size (skipn i t)) st) in *.
    set (st2 := if Nat.ltb (i + chunk_size) (length t)
                then mkRun (emit (rbot st1) [ESleepUniform 60 120]) (ledger st1) else st1).
    assert (Hp2 : processed_users (rbot st2) = processed_users (rbot st1))
      by (unfold st2; destruct (Nat.ltb (i + chunk_size) (length t)); reflexivity).
    assert (Hl2 : ledger st2 = ledger st1)
      by (unfold st2; destruct (Nat.ltb (i + chunk_size) (length t)); reflexivity).
    destruct (IH (i + chunk_size)%nat st2) as [IH1 IH2].
    + unfold chunk_size in *. lia.
    + exact Hnd2.
    + intros u Hu. rewrite Hp2, H1. intros Hu'.
      apply elem_of_union in Hu' as [Hu'|Hu'].
      * rewrite elem_of_list_to_set in Hu'. exact (Hdisj u Hu' Hu).
      * apply (Hfresh u); [rewrite Hsplit; apply elem_of_app; right; exact Hu | exact Hu'].
    + fold st1. fold st2. split.
      * rewrite IH1, Hp2, H1, union_app_front, <- list_to_set_app_L, <- Hsplit.
        reflexivity.
      * rewrite IH2, Hl2, H2, str_append_assoc, <- ledger_suffix_app, <- Hsplit.
        reflexivity.
Qed.

Lemma in_tail (x y : string) (l : list string) : x ∈ l -> x ∈ y :: l.
Proof. intros H. apply elem_of_cons. right. exact H. Qed.

Lemma filter_ext_in (P Q : string -> Prop) `{!forall x, Decision (P x)}
    `{!forall x, Decision (Q x)} (l : list string) :
  (forall x, x ∈ l -> (P x <-> Q x)) -> filter P l = filter Q l.
Proof.
  induction l as [|x l IH]; intros Hext; [reflexivity|].
  rewrite !filter_cons.
  assert (Hx : P x <-> Q x) by (apply Hext; left).
  rewrite IH by (intros y Hy; apply Hext; right; exact Hy).
  destruct (decide (P x)), (decide (Q x)); tauto.
Qed.

(** For any unfollow outcomes, a chunk of fresh, distinct handles appends
    ['\n' + u] exactly for the handles it records as processed, and
    records no other handle. *)
Lemma run_chunk_ledger (orc : oracle) (l : list string) (st : run_state) :
  NoDup l -> (forall u, u ∈ l -> u ∉ processed_users (rbot st)) ->
  (forall v, v ∉ l -> (v ∈ processed_users (rbot (run_chunk orc l st)) <->
                       v ∈ processed_users (rbot st))) /\
  ledger (run_chunk orc l st) =
    String.append (ledger st)
      (ledger_suffix (filter (fun u => u ∈ processed_users (rbot (run_chunk orc l st))) l)).
Proof.
  revert st. induction l as [|u l IH]; intros st Hnd Hfresh.
  - split; [tauto|]. simpl. symmetry. apply str_append_nil_r.
  - apply NoDup_cons in Hnd as [Hul Hnd].
    assert (Hu : u ∉ processed_users (rbot st)) by (apply Hfresh; left).
    cbn [run_chunk].
    pose proof (unfollow_user_shape orc u (rbot st)) as Hs.
    destruct (unfollow_user orc u (rbot st)) as [ok b'].
    destruct Hs as [_ [Hp Hok]].
    set (st1 := mkRun b' (if ok then String.append (ledger st) (String "010"%char u)
                          else ledger st)).
    destruct (IH st1 Hnd) as [IH1 IH2].
    { intros v Hv. simpl. rewrite Hp. intros Hv'.
      destruct ok; [apply elem_of_union in Hv' as [Hv'|Hv']|].
      - apply elem_of_singleton in Hv'. subst v. contradiction.
      - exact (Hfresh v (in_tail _ _ _ Hv) Hv').
      - exact (Hfresh v (in_tail _ _ _ Hv) Hv'). }
    set (R := run_chunk orc l st1) in *.
    assert (HuR : u ∈ processed_users (rbot R) <-> ok = true).
    { rewrite (IH1 u Hul). simpl. rewrite Hok. symmetry. apply bool_decide_eq_true. }
    split.
    + intros v Hv. rewrite (IH1 v (fun H => Hv (in_tail _ _ _ H))).
      simpl. rewrite Hp. destruct ok; [|reflexivity].
      rewrite elem_of_union, elem_of_singleton. split; [|tauto].
      intros [->|H]; [exfalso; apply Hv; left | exact H].
    + rewrite IH2, filter_cons. simpl ledger.
      destruct (decide (u ∈ processed_users (rbot R))) as [Hin|Hnin].
      * apply HuR in Hin. rewrite Hin. cbv iota.
        rewrite str_append_assoc. reflexivity.
      * destruct ok; [exfalso; apply Hnin, HuR; reflexivity | reflexivity].
Qed.

Lemma run_chunks_ledger (orc : oracle) (t : list string) (fuel i : nat) (st : run_state) :
  (length t <= i + chunk_size * fuel)%nat ->
  NoDup (skipn i t) -> (forall u, u ∈ skipn i t -> u ∉ processed_users (rbot st)) ->
  (forall v, v ∉ skipn i t ->
     (v ∈ processed_users (rbot (run_chunks orc fuel i t st)) <->
      v ∈ processed_users (rbot st))) /\
  ledger (run_chunks orc fuel i t st) =
    String.append (ledger st)
      (ledger_suffix (filter (fun u => u ∈ processed_users (rbot (run_chunks orc fuel i t st)))
                        (skipn i t))).
Proof.
  revert i st. induction fuel as [|fuel IH]; intros i st Hlen Hnd Hfresh; cbn [run_chunks].
  - split; [tauto|]. rewrite skipn_all2 by lia. simpl. symmetry. apply str_append_nil_r.
  - destruct (Nat.ltb i (length t)) eqn:Hi.
    2:{ apply Nat.ltb_ge in Hi. split; [tauto|]. rewrite skipn_all2 by lia. simpl.
        symmetry. apply str_append_nil_r. }
    assert (Hsplit : skipn i t = firstn chunk_size (skipn i t) ++ skipn (i + chunk_size) t).
    { rewrite <- (firstn_skipn chunk_size (skipn i t)) at 1.
      rewrite skipn_skipn. f_equal. f_equal. lia. }
    set (c := firstn chunk_size (skipn i t)) in *.
    set (rest := skipn (i + chunk_size) t) in *.
    rewrite Hsplit in Hnd, Hfresh |- *.
    apply NoDup_app in Hnd as [Hnd1 [Hdisj Hnd2]].
    destruct (run_chunk_ledger orc c st Hnd1) as [C1 C2].
    { intros u Hu. apply Hfresh. apply elem_of_app. left. exact Hu. }
    set (st1 := run_chunk orc c st) in *.
    set (st2 := if Nat.ltb (i + chunk_size) (length t)
                then mkRun (emit (rbot st1) [ESleepUniform 60 120]) (ledger st1) else st1).
    assert (Hp2 : processed_users (rbot st2) = processed_users (rbot st1))
      by (unfold st2; destruct (Nat.ltb (i + chunk_size) (length t)); reflexivity).
    assert (Hl2 : ledger st2 = ledger st1)
      by (unfold st2; destruct (Nat.ltb (i + chunk_size) (length t)); reflexivity).
    destruct (IH (i + chunk_size)%nat st2) as [IH1 IH2].
    + unfold chunk_size in *. lia.
    + exact Hnd2.
    + intros u Hu. rewrite Hp2, (C1 u (fun H => Hdisj u H Hu)).
      apply Hfresh. apply elem_of_app. right. exact Hu.
    + fold st1. fold st2. fold rest.
      set (R := run_chunks orc fuel (i + chunk_size) t st2) in *.
      split.
      * intros v Hv. rewrite elem_of_app in Hv.
        rewrite (IH1 v (fun H => Hv (or_intror H))), Hp2.
        exact (C1 v (fun H => Hv (or_introl H))).
      * rewrite IH2, Hl2, C2, filter_app, ledger_suffix_app, str_append_assoc.
        do 3 f_equal. apply filter_ext_in. intros x Hx.
        rewrite (IH1 x (Hdisj x Hx)), Hp2. reflexivity.
Qed.

End LedgerFacts.

Section LedgerClaims.
Import Unfollow Run LedgerFacts.

(** C3 (counterexample): the progress file is never read back.  A run
    interrupted after its first handle ("c") records it; the resumed run
    (a fresh bot) truncates the file.  If the listing no longer shows "c",
    the final ledger holds only "a"; if it still does, "c" is unfollowed
    again although the file records it. *)
Lemma ledger_not_read_on_resume :
  let st1 := find_and_unfollow_interrupted 1 all_204 ["a"; "b"; "c"] ["b"] fresh_bot "" in
  ledger_entries (ledger st1) = ["c"%string]
  /\ ledger_entries (ledger (find_and_unfollow all_204 ["a"; "b"] ["b"] fresh_bot (ledger st1)))
     = ["a"%string]
  /\ EPost "c" ∈ trace (rbot (find_and_unfollow all_204 ["a"; "b"; "c"] ["b"] fresh_bot (ledger st1))).
Proof.
  split; [vm_compute; reflexivity|]. split; [vm_compute; reflexivity|].
  apply list_elem_of_In. vm_compute. repeat (first [left; reflexivity | right]).
Qed.

(** C3 (amended).  Whatever the progress file held before, a run (a fresh
    bot, so [processed_users] starts empty) truncates it and then appends
    ['\n' + u] for exactly the targets it records as processed (which the
    driver does on a 204 and only then), in the order they were tried,
    each once; it records no handle that is not a target.  After a run
    interrupted at any point, the resumed run's file holds exactly the
    handles the resumed run unfollowed.  When every unfollow call returns
    204 the file holds each target once; for following = {a,b,c},
    followers = {b} that is a and c. *)
Theorem ledger_records_current_run (orc : oracle) (following followers : list string)
    (old : string) :
  let targets := target_order following followers in
  let st := find_and_unfollow orc following followers fresh_bot old in
  ledger st = ledger_suffix (filter (fun u => u ∈ processed_users (rbot st)) targets)
  /\ NoDup (filter (fun u => u ∈ processed_users (rbot st)) targets)
  /\ processed_users (rbot st) ⊆ reconcile following followers
  /\ (forall (k : nat) (orc0 : oracle) (old0 : string),
        let st0 := find_and_unfollow_interrupted k orc0 following followers fresh_bot old0 in
        let st2 := find_and_unfollow orc following followers fresh_bot (ledger st0) in
        ledger st2 = ledger_suffix (filter (fun u => u ∈ processed_users (rbot st2)) targets))
  /\ ledger (find_and_unfollow all_204 following followers fresh_bot old) = ledger_suffix targets
  /\ ledger_entries (ledger (find_and_unfollow all_204 ["a"; "b"; "c"] ["b"] fresh_bot old))
     ≡ₚ ["a"%string; "c"%string].
Proof.
  assert (Hgen : forall (o : oracle) (F B : list string) (old' : string),
    let st := find_and_unfollow o F B fresh_bot old' in
    ledger st = ledger_suffix (filter (fun u => u ∈ processed_users (rbot st)) (target_order F B))
    /\ processed_users (rbot st) ⊆ reconcile F B).
  { intros o F B old'. unfold find_and_unfollow.
    destruct (run_chunks_ledger o (target_order F B) (length (target_order F B)) 0
                (mkRun fresh_bot (py_join_nl (elements (processed_users fresh_bot)))))
      as [H1 H2].
    - unfold chunk_size. lia.
    - apply NoDup_elements.
    - intros u _. simpl. apply not_elem_of_empty.
    - rewrite drop_0 in H1, H2. split.
      + rewrite H2. simpl. reflexivity.
      + intros v Hv. destruct (decide (v ∈ target_order F B)) as [Ht|Ht].
        * unfold target_order in Ht. apply elem_of_elements. exact Ht.
        * apply (H1 v Ht) in Hv. simpl in Hv. set_solver. }
  assert (H204 : forall (F B : list string),
    ledger (find_and_unfollow all_204 F B fresh_bot old) = ledger_suffix (target_order F B)).
  { intros F B. unfold find_and_unfollow.
    destruct (run_chunks_all_204 (target_order F B) (length (target_order F B)) 0
                (mkRun fresh_bot (py_join_nl (elements (processed_users fresh_bot)))))
      as [_ H2].
    - unfold chunk_size. lia.
    - apply NoDup_elements.
    - intros u _. simpl. apply not_elem_of_empty.
    - rewrite H2. simpl. rewrite drop_0. reflexivity. }
  intros targets st.
  split; [apply Hgen|]. split; [apply NoDup_filter, NoDup_elements|].
  split; [apply Hgen|]. split; [intros k orc0 old0 st0 st2; apply Hgen|].
  split; [apply H204|].
  rewrite H204. vm_compute. apply perm_swap.
Qed.

End LedgerClaims.

(* ------------------------------------------------------------------ *)
(** ** Collector: page count (C1) *)

Module PagingFacts.
Import Collector.

Lemma add_profiles_clean (hs : list string) (us : gset string) :
  Forall clean_valid hs -> add_profiles (map Some hs) us = list_to_set hs ∪ us.
Proof.
  revert us. induction hs as [|h hs IH]; intros us Hf; simpl.
  - apply LedgerFacts.union_empty_front.
  - apply Forall_cons in Hf as [[Hc Hv] Hf].
    change (add_profiles (map Some hs)
              (let cleaned := Validator.strip (Validator.replace_at h) in
               if Validator.validate_username (Validator.PStr cleaned)
               then {[cleaned]} ∪ us else us) = list_to_set (h :: hs) ∪ us).
    cbv zeta. rewrite Hc, Hv.
    rewrite IH by exact Hf. apply LedgerFacts.union_swap_front.
Qed.

Lemma union_list_to_set_app (a b : list string) :
  list_to_set b ∪ list_to_set a = (list_to_set (a ++ b) : gset string).
Proof. rewrite list_to_set_app_L. set_solver. Qed.

End PagingFacts.

(** C1: a listing declaring 45 profiles and serving 20, 20 and 5 distinct
    valid handles on pages 1, 2 and 3 is read with ceiling division
    (total_pages = 3), exactly three page requests, and yields the 45
    handles ([fuel] only bounds the model's loop). *)
Theorem collector_45_profiles (h1 h2 h3 : list string) (nt2 nt3 : option Z)
    (api : Collector.api_mock) (rm : Collector.refresh_mock) (fuel : nat) :
  length h1 = 20%nat -> length h2 = 20%nat -> length h3 = 5%nat ->
  NoDup (h1 ++ h2 ++ h3) ->
  Forall clean_valid (h1 ++ h2 ++ h3) ->
  (forall hist, api hist 1 =
     Collector.FOk (Collector.RDict (Some 45) (Some (map Some h1)))) ->
  (forall hist, api hist 2 = Collector.FOk (Collector.RDict nt2 (Some (map Some h2)))) ->
  (forall hist, api hist 3 = Collector.FOk (Collector.RDict nt3 (Some (map Some h3)))) ->
  (4 <= fuel)%nat ->
  fst (Collector.get_users api rm true fuel) = Collector.CDone (list_to_set (h1 ++ h2 ++ h3))
  /\ size (list_to_set (h1 ++ h2 ++ h3) : gset string) = 45%nat
  /\ Collector.fetched (snd (Collector.get_users api rm true fuel)) = [1; 2; 3]
  /\ Collector.total_pages (snd (Collector.get_users api rm true fuel)) = Some 3.
Proof.
  intros L1 L2 L3 Hnd Hf A1 A2 A3 Hfuel.
  pose proof Hf as Hf'. apply Forall_app in Hf' as [F1 F23]. apply Forall_app in F23 as [F2 F3].
  pose proof Hnd as Hnd12. rewrite app_assoc in Hnd12. apply NoDup_app in Hnd12 as [Hnd12 _].
  pose proof Hnd12 as Hnd1. apply NoDup_app in Hnd1 as [Hnd1 _].
  assert (E1 : Collector.add_profiles (map Some h1) ∅ = list_to_set h1).
  { rewrite PagingFacts.add_profiles_clean by exact F1. apply (right_id_L ∅ union). }
  assert (E2 : Collector.add_profiles (map Some h2) (list_to_set h1) = list_to_set (h1 ++ h2)).
  { rewrite PagingFacts.add_profiles_clean by exact F2. apply PagingFacts.union_list_to_set_app. }
  assert (E3 : Collector.add_profiles (map Some h3) (list_to_set (h1 ++ h2)) =
               list_to_set (h1 ++ h2 ++ h3)).
  { rewrite PagingFacts.add_profiles_clean by exact F3.
    rewrite app_assoc. apply PagingFacts.union_list_to_set_app. }
  assert (S1 : size (list_to_set h1 : gset string) = 20%nat)
    by (rewrite size_list_to_set by exact Hnd1; exact L1).
  assert (S2 : size (list_to_set (h1 ++ h2) : gset string) = 40%nat)
    by (rewrite size_list_to_set by exact Hnd12; rewrite length_app; lia).
  assert (S3 : size (list_to_set (h1 ++ h2 ++ h3) : gset string) = 45%nat)
    by (rewrite size_list_to_set by exact Hnd; rewrite !length_app; lia).
  destruct fuel as [|[|[|[|fuel]]]]; try lia.
  unfold Collector.get_users. cbn -[Collector.add_profiles size list_to_set].
  rewrite A1. cbn -[Collector.add_profiles size list_to_set].
  rewrite E1, S1, size_empty.
  replace (Collector.ceil_pages 45) with 3 by reflexivity.
  replace (1 + 1) with 2 by reflexivity.
  cbn -[Collector.add_profiles size list_to_set].
  rewrite A2. cbn -[Collector.add_profiles size list_to_set].
  rewrite E2, S2, S1.
  replace (2 + 1) with 3 by reflexivity.
  cbn -[Collector.add_profiles size list_to_set].
  rewrite A3. cbn -[Collector.add_profiles size list_to_set].
  rewrite E3, S3, S2.
  replace (3 + 1) with 4 by reflexivity.
  simpl. repeat split; reflexivity.
Qed.

Lemma collector_45_profiles_witness :
  let h1 := page_handles 1 20 in let h2 := page_handles 2 20 in let h3 := page_handles 3 5 in
  length h1 = 20%nat /\ length h2 = 20%nat /\ length h3 = 5%nat /\
  NoDup (h1 ++ h2 ++ h3) /\ Forall clean_valid (h1 ++ h2 ++ h3) /\
  fst (Collector.get_users api45 (fun _ => Collector.RCaptured) true 4) =
    Collector.CDone (list_to_set (h1 ++ h2 ++ h3))
  /\ size (list_to_set (h1 ++ h2 ++ h3) : gset string) = 45%nat
  /\ Collector.fetched (snd (Collector.get_users api45 (fun _ => Collector.RCaptured) true 4))
     = [1; 2; 3]
  /\ Collector.total_pages (snd (Collector.get_users api45 (fun _ => Collector.RCaptured) true 4))
     = Some 3.
Proof.
  intros h1 h2 h3.
  assert (Hnd : NoDup (h1 ++ h2 ++ h3))
    by (apply (bool_decide_unpack _); vm_compute; exact I).
  assert (Hf : Forall clean_valid (h1 ++ h2 ++ h3)).
  { apply Forall_forall. intros x Hx.
    assert (Hb : forallb (fun h => String.eqb (Validator.strip (Validator.replace_at h)) h
                                   && Validator.validate_username (Validator.PStr h))
                   (h1 ++ h2 ++ h3) = true) by (vm_compute; reflexivity).
    rewrite forallb_forall in Hb. apply list_elem_of_In in Hx.
    apply Hb, andb_prop in Hx as [H1 H2]. apply String.eqb_eq in H1.
    split; assumption. }
  do 5 (split; [first [reflexivity | assumption] |]).
  exact (collector_45_profiles h1 h2 h3 (Some 45) (Some 45) api45
           (fun _ => Collector.RCaptured) 4 eq_refl eq_refl eq_refl Hnd Hf
           (fun _ => eq_refl) (fun _ => eq_refl) (fun _ => eq_refl) ltac:(lia)).
Defined.


(* ================================================================== *)
(** * Further properties of the code *)

Module SessionFacts.
Import Session CountFacts.

Lemma probe_selectors_shape (env : page_env) (r : nat) (sels : list string) (tr : list sevent) :
  exists ext, snd (probe_selectors env r sels tr) = tr ++ ext /\
    (count_if is_probe ext <= length sels)%nat.
Proof.
  revert tr; induction sels as [|s rest IH]; intros tr; simpl.
  - exists []. rewrite app_nil_r. simpl. split; [reflexivity | lia].
  - destruct (found env r s).
    + exists [SProbe r s]. simpl. split; [reflexivity | lia].
    + destruct (IH (tr ++ [SProbe r s])) as [ext [E L]].
      exists (SProbe r s :: ext). rewrite E, <- app_assoc. simpl. split; [reflexivity | lia].
Qed.

Lemma probe_rounds_shape (env : page_env) (fuel r : nat) (tr : list sevent) :
  exists ext, snd (probe_rounds env r fuel tr) = tr ++ ext /\
    (count_if is_probe ext <= 9 * fuel)%nat.
Proof.
  revert r tr; induction fuel as [|f IH]; intros r tr; cbn -[probe_selectors].
  - exists []. rewrite app_nil_r. simpl. split; [reflexivity | lia].
  - pose proof (probe_selectors_shape env r login_selectors tr) as [e1 [E1 L1]].
    destruct (probe_selectors env r login_selectors tr) as [ok tr1]. simpl in E1, L1. subst tr1.
    destruct ok.
    + exists e1. simpl. split; [reflexivity | lia].
    + destruct (IH (S r) ((tr ++ e1) ++ [SSleep 2])) as [e2 [E2 L2]].
      exists (e1 ++ [SSleep 2] ++ e2). rewrite E2, <- !app_assoc.
      split; [reflexivity|]. rewrite !count_if_app. simpl. lia.
Qed.

Lemma probe_selectors_none (env : page_env) (r : nat) (sels : list string) (tr : list sevent) :
  (forall s, found env r s = false) -> fst (probe_selectors env r sels tr) = false.
Proof.
  intros Hf. revert tr; induction sels as [|s rest IH]; intros tr; simpl; [reflexivity|].
  rewrite Hf. apply IH.
Qed.

Lemma probe_rounds_none (env : page_env) (fuel r : nat) (tr : list sevent) :
  (forall r s, found env r s = false) -> fst (probe_rounds env r fuel tr) = false.
Proof.
  intros Hf. revert r tr; induction fuel as [|f IH]; intros r tr; cbn -[probe_selectors];
    [reflexivity|].
  pose proof (probe_selectors_none env r login_selectors tr (Hf r)) as H.
  destruct (probe_selectors env r login_selectors tr) as [ok tr1]. simpl in H. subst ok.
  apply IH.
Qed.

End SessionFacts.

Section SessionExtras.
Import Session SessionFacts CountFacts.

(** verify_session never returns False and raises nothing but
    [SessionError]: either the login-timeout one or the wrapper for any
    other failure. *)
Theorem verify_session_outcomes (env : page_env) :
  fst (verify_session env) = VTrue \/
  fst (verify_session env) = VRaise (SessionError "Login timeout - please try again") \/
  fst (verify_session env) = VRaise (SessionError "Failed to verify session status").
Proof.
  unfold verify_session. destruct (goto_ok env); [|simpl; auto].
  destruct (probe_rounds env 0 3 [SGoto; SSleep 2]) as [[|] tr]; simpl; [auto|].
  destruct (login_done env); [auto|].
  destruct (PyStr.contains "/me" (url_after env) || PyStr.contains "/profile" (url_after env));
    simpl; auto.
Qed.

(** verify_session waits for a selector at most 27 times (3 rounds of 9). *)
Theorem verify_session_probe_bound (env : page_env) :
  (count_if is_probe (snd (verify_session env)) <= 27)%nat.
Proof.
  unfold verify_session. destruct (goto_ok env); [|simpl; lia].
  pose proof (probe_rounds_shape env 3 0 [SGoto; SSleep 2]) as [ext [E L]].
  destruct (probe_rounds env 0 3 [SGoto; SSleep 2]) as [ok tr]. simpl in E. subst tr.
  destruct ok; [simpl; lia|].
  destruct (login_done env); [|destruct (_ || _)]; simpl;
    rewrite ?count_if_app; simpl; lia.
Qed.

(** When the page shows no login indicator in any round and the 5 minute
    wait for one times out, the outcome depends only on the URL: True when
    it contains '/me' or '/profile', a login-timeout SessionError otherwise. *)
Theorem verify_session_url_fallback (env : page_env)
    (Hg : goto_ok env = true) (Hf : forall r s, found env r s = false)
    (Hl : login_done env = false) :
  fst (verify_session env) =
    if PyStr.contains "/me" (url_after env) || PyStr.contains "/profile" (url_after env)
    then VTrue else VRaise (SessionError "Login timeout - please try again").
Proof.
  unfold verify_session. rewrite Hg.
  pose proof (probe_rounds_none env 3 0 [SGoto; SSleep 2] Hf) as H.
  destruct (probe_rounds env 0 3 [SGoto; SSleep 2]) as [ok tr]. simpl in H. subst ok.
  simpl. rewrite Hl.
  destruct (PyStr.contains "/me" (url_after env) || PyStr.contains "/profile" (url_after env));
    reflexivity.
Qed.

Lemma verify_session_url_fallback_witness :
  let env := mkPageEnv true (fun _ _ => false) false "https://suno.com/me" in
  goto_ok env = true /\ (forall r s, found env r s = false) /\ login_done env = false /\
  fst (verify_session env) = VTrue.
Proof.
  intros env. split; [reflexivity|]. split; [intros; reflexivity|]. split; [reflexivity|].
  rewrite (verify_session_url_fallback env eq_refl (fun _ _ => eq_refl) eq_refl).
  reflexivity.
Defined.

End SessionExtras.

Section BrowserCtxExtras.
Import BrowserCtx CountFacts.

(** browser_context closes the page exactly once when [new_page] returned
    one, whatever happens afterwards, and never otherwise. *)
Theorem browser_context_closes_page (env : ctx_env) :
  count_if is_close (snd (browser_context env)) =
    if (if has_context env then true
        else match init env with None => true | Some _ => false end) && new_page_ok env
    then 1%nat else 0%nat.
Proof.
  unfold browser_context.
  destruct (has_context env), (init env), (new_page_ok env), (route_ok env),
    (fst (Session.verify_session (session env))), (body env), (close_raises env);
    simpl; rewrite ?count_if_app; reflexivity.
Qed.

(** A failing [page.close()] is only logged: the exception leaving the
    [async with] is the same as when closing succeeds. *)
Theorem browser_context_close_error_swallowed (env : ctx_env) :
  fst (browser_context env) = fst (browser_context (with_close_ok env)).
Proof.
  unfold browser_context, with_close_ok; simpl.
  destruct (has_context env), (init env), (new_page_ok env), (route_ok env),
    (fst (Session.verify_session (session env))), (body env), (close_raises env);
    reflexivity.
Qed.

(** The body of the [async with] runs only after verify_session returned
    True, and then the exception leaving the statement is the body's. *)
Theorem browser_context_body_after_session (env : ctx_env) :
  In BBody (snd (browser_context env)) ->
  fst (Session.verify_session (session env)) = Session.VTrue /\
  fst (browser_context env) = body env.
Proof.
  unfold browser_context.
  destruct (has_context env), (init env), (new_page_ok env), (route_ok env),
    (fst (Session.verify_session (session env))), (body env), (close_raises env);
    simpl; intros H; rewrite ?in_app_iff in H; simpl in H; intuition discriminate.
Qed.

Lemma browser_context_body_after_session_witness :
  let env := mkCtx true None true true (Session.mkPageEnv true (fun _ _ => true) false "")
                   (Some (RateLimitError "r")) true in
  In BBody (snd (browser_context env)) /\
  fst (Session.verify_session (session env)) = Session.VTrue /\
  fst (browser_context env) = body env.
Proof.
  intros env.
  assert (H : In BBody (snd (browser_context env))) by (vm_compute; tauto).
  split; [exact H|]. exact (browser_context_body_after_session env H).
Defined.

End BrowserCtxExtras.

Module RunFacts.
Import Unfollow Run RunView CountFacts UnfollowFacts.

Lemma run_chunk_shape (orc : oracle) (T : string -> Prop) (chunk : list string) :
  forall st, (forall u, In u chunk -> T u) ->
  exists ext, trace (rbot (run_chunk orc chunk st)) = trace (rbot st) ++ ext /\
    Forall (posts_within T) ext /\ count_if is_pause ext = 0%nat.
Proof.
  induction chunk as [|u rest IH]; intros st HT; simpl.
  - exists []. rewrite app_nil_r. repeat split; constructor.
  - pose proof (unfollow_user_shape orc u (rbot st)) as Hu.
    destruct (unfollow_user orc u (rbot st)) as [ok b'].
    destruct Hu as [[e1 [E1 [F1 [P1 _]]]] _].
    destruct (IH (mkRun b' (if ok then String.append (ledger st) (String "010"%char u)
                             else ledger st))) as [e2 [E2 [F2 P2]]].
    { intros v Hv. apply HT. right. exact Hv. }
    exists (e1 ++ e2). simpl in E2. rewrite E2, E1, app_assoc. split; [reflexivity|].
    split.
    + apply Forall_app. split; [|exact F2].
      eapply Forall_impl; [exact F1|]. intros e He. destruct e; simpl in *; try exact I.
      subst. apply HT. left. reflexivity.
    + rewrite count_if_app, P1, P2. reflexivity.
Qed.

Lemma pause_count_step (n i : nat) :
  (i < n)%nat ->
  ((n - (i + 1)) / 5 = (if Nat.ltb (i + 5) n then 1 else 0) + (n - (i + 5 + 1)) / 5)%nat.
Proof.
  intros Hi. destruct (Nat.ltb (i + 5) n) eqn:E.
  - apply Nat.ltb_lt in E.
    replace (n - (i + 1))%nat with (1 * 5 + (n - (i + 5 + 1)))%nat by lia.
    rewrite Nat.div_add_l by lia. reflexivity.
  - apply Nat.ltb_ge in E.
    rewrite (Nat.div_small (n - (i + 1))) by lia.
    replace (n - (i + 5 + 1))%nat with 0%nat by lia. reflexivity.
Qed.

Lemma run_chunks_shape (orc : oracle) (T : string -> Prop) (t : list string) (fuel : nat) :
  forall i st, (forall u, In u t -> T u) -> (length t <= i + chunk_size * fuel)%nat ->
  exists ext, trace (rbot (run_chunks orc fuel i t st)) = trace (rbot st) ++ ext /\
    Forall (posts_within T) ext /\
    count_if is_pause ext = ((length t - (i + 1)) / 5)%nat.
Proof.
  induction fuel as [|fuel IH]; intros i st HT Hlen; cbn [run_chunks].
  - exists []. rewrite app_nil_r. split; [reflexivity|]. split; [constructor|].
    replace (length t - (i + 1))%nat with 0%nat by lia. reflexivity.
  - destruct (Nat.ltb i (length t)) eqn:Hi.
    2:{ apply Nat.ltb_ge in Hi. exists []. rewrite app_nil_r.
        split; [reflexivity|]. split; [constructor|].
        replace (length t - (i + 1))%nat with 0%nat by lia. reflexivity. }
    apply Nat.ltb_lt in Hi.
    destruct (run_chunk_shape orc T (firstn chunk_size (skipn i t)) st) as [e1 [E1 [F1 P1]]].
    { intros u Hu. apply HT.
      rewrite <- (firstn_skipn i t), in_app_iff. right.
      rewrite <- (firstn_skipn chunk_size (skipn i t)), in_app_iff. left. exact Hu. }
    set (st1 := run_chunk orc (firstn chunk_size (skipn i t)) st) in *.
    set (pause := if Nat.ltb (i + chunk_size) (length t) then [ESleepUniform 60 120] else []).
    set (st2 := if Nat.ltb (i + chunk_size) (length t)
                then mkRun (emit (rbot st1) [ESleepUniform 60 120]) (ledger st1) else st1).
    assert (E2 : trace (rbot st2) = trace (rbot st1) ++ pause)
      by (unfold st2, pause; destruct (Nat.ltb (i + chunk_size) (length t));
          [reflexivity | symmetry; apply app_nil_r]).
    destruct (IH (i + chunk_size)%nat st2 HT) as [e3 [E3 [F3 P3]]].
    { unfold chunk_size in *. lia. }
    exists (e1 ++ pause ++ e3). fold st1. fold st2.
    rewrite E3, E2, E1, <- !app_assoc. split; [reflexivity|]. split.
    + apply Forall_app. split; [exact F1|]. apply Forall_app. split; [|exact F3].
      unfold pause. destruct (Nat.ltb (i + chunk_size) (length t)); repeat constructor.
    + rewrite !count_if_app, P1, P3.
      rewrite (pause_count_step (length t) i Hi).
      unfold pause, chunk_size. destruct (Nat.ltb (i + 5) (length t)); simpl; lia.
Qed.

Lemma find_and_unfollow_shape (orc : oracle) (following followers : list string)
    (b : bot) (old : string) :
  exists ext, trace (rbot (find_and_unfollow orc following followers b old)) = trace b ++ ext /\
    Forall (posts_within (fun h => h ∈ reconcile following followers)) ext /\
    count_if is_pause ext = ((size (reconcile following followers) - 1) / 5)%nat.
Proof.
  unfold find_and_unfollow, target_order.
  assert (HT : forall u, In u (elements (reconcile following followers)) ->
                         u ∈ reconcile following followers).
  { intros u Hu. apply elem_of_elements. apply list_elem_of_In. exact Hu. }
  assert (Hlen : (length (elements (reconcile following followers)) <=
                  0 + chunk_size * length (elements (reconcile following followers)))%nat)
    by (unfold chunk_size; lia).
  destruct (run_chunks_shape orc (fun h => h ∈ reconcile following followers)
              (elements (reconcile following followers))
              (length (elements (reconcile following followers))) 0
              (mkRun b (py_join_nl (elements (processed_users b)))) HT Hlen)
    as [ext [E [F P]]].
  exists ext. split; [exact E|]. split; [exact F|].
  rewrite P. reflexivity.
Qed.

End RunFacts.

Module CleanFacts.
Import Validator ValidatorFacts CleanView.

Lemma lstrip_idem (s : string) : lstrip (lstrip s) = lstrip s.
Proof.
  induction s as [|c s IH]; simpl; [reflexivity|].
  destruct (is_py_space c) eqn:E; [exact IH|]. simpl. rewrite E. reflexivity.
Qed.

Lemma lstrip_suffix (s : string) : exists p, s = String.append p (lstrip s).
Proof.
  induction s as [|c s IH]; simpl; [exists EmptyString; reflexivity|].
  destruct (is_py_space c).
  - destruct IH as [p Hp]. exists (String c p). exact (f_equal (String c) Hp).
  - exists EmptyString. reflexivity.
Qed.

Lemma lstrip_length (s : string) : (String.length (lstrip s) <= String.length s)%nat.
Proof.
  induction s as [|c s IH]; simpl; [lia|]. destruct (is_py_space c); simpl; lia.
Qed.

Lemma str_length_append (a b : string) :
  String.length (String.append a b) = (String.length a + String.length b)%nat.
Proof. induction a as [|c a IH]; simpl; [reflexivity | rewrite IH; reflexivity]. Qed.

(** If [x ++ y] has no leading whitespace, neither has [x]. *)
Lemma lstrip_fixed_prefix (x y : string) :
  lstrip (String.append x y) = String.append x y -> lstrip x = x.
Proof.
  destruct x as [|c r]; [reflexivity|]. simpl.
  destruct (is_py_space c) eqn:E; [|reflexivity].
  intros H. exfalso.
  pose proof (lstrip_length (String.append r y)) as L.
  rewrite H in L. simpl in L. lia.
Qed.

Lemma strip_idem (s : string) : strip (strip s) = strip s.
Proof.
  unfold strip.
  set (A := lstrip s). set (B := lstrip (rev_str A)).
  destruct (lstrip_suffix (rev_str A)) as [P HP]. fold B in HP.
  assert (HA : lstrip A = A) by apply lstrip_idem.
  assert (HrevA : A = String.append (rev_str B) (rev_str P)).
  { rewrite <- (rev_str_involutive A), HP, rev_str_append. reflexivity. }
  assert (HrB : lstrip (rev_str B) = rev_str B).
  { apply (lstrip_fixed_prefix _ (rev_str P)). rewrite <- HrevA. exact HA. }
  rewrite HrB, rev_str_involutive. unfold B. rewrite lstrip_idem. reflexivity.
Qed.

Lemma no_at_replace (s : string) : no_at (replace_at s) = true.
Proof.
  induction s as [|c s IH]; simpl; [reflexivity|].
  destruct (Ascii.eqb c "@"%char) eqn:E; [exact IH|]. simpl. rewrite E, IH. reflexivity.
Qed.

Lemma replace_no_at (s : string) : no_at s = true -> replace_at s = s.
Proof.
  induction s as [|c s IH]; simpl; [reflexivity|].
  destruct (Ascii.eqb c "@"%char); simpl; [discriminate|].
  intros H. rewrite (IH H). reflexivity.
Qed.

Lemma no_at_append (a b : string) : no_at (String.append a b) = no_at a && no_at b.
Proof.
  induction a as [|c a IH]; simpl; [reflexivity|]. rewrite IH. apply andb_assoc.
Qed.

Lemma no_at_rev (s : string) : no_at (rev_str s) = no_at s.
Proof.
  induction s as [|c s IH]; simpl; [reflexivity|].
  rewrite no_at_append, IH. simpl. rewrite andb_true_r. apply andb_comm.
Qed.

Lemma no_at_lstrip (s : string) : no_at s = true -> no_at (lstrip s) = true.
Proof.
  induction s as [|c s IH]; simpl; [reflexivity|].
  intros H. destruct (is_py_space c); [|exact H].
  apply IH. apply andb_prop in H as [_ H]. exact H.
Qed.

Lemma no_at_strip (s : string) : no_at s = true -> no_at (strip s) = true.
Proof.
  intros H. unfold strip. rewrite no_at_rev.
  apply no_at_lstrip. rewrite no_at_rev. apply no_at_lstrip. exact H.
Qed.

(** Cleaning ([replace('@', '')] then [strip()]) is idempotent. *)
Lemma clean_idem (h : string) :
  strip (replace_at (strip (replace_at h))) = strip (replace_at h).
Proof.
  rewrite (replace_no_at (strip (replace_at h))).
  - apply strip_idem.
  - apply no_at_strip, no_at_replace.
Qed.

End CleanFacts.

Section CleanExtras.
Import Validator.

(** Cleaning a handle ([replace('@', '').strip()]) is idempotent, and
    cleaning it before validating changes nothing: get_users cleans each
    handle and validate_username cleans it again, with the verdict
    validate_username gives the raw handle. *)
Theorem validate_username_clean_invariant (h : string) :
  strip (replace_at (strip (replace_at h))) = strip (replace_at h) /\
  validate_username (PStr (strip (replace_at h))) = validate_username (PStr h).
Proof.
  split; [apply CleanFacts.clean_idem|].
  unfold validate_username. rewrite CleanFacts.clean_idem.
  destruct (String.eqb h EmptyString) eqn:Eh.
  - apply String.eqb_eq in Eh. subst h. reflexivity.
  - destruct (String.eqb (strip (replace_at h)) EmptyString) eqn:Ec; [|reflexivity].
    apply String.eqb_eq in Ec. rewrite Ec. reflexivity.
Qed.

End CleanExtras.

Module CollectorFacts.
Import Collector RetryFacts.

Lemma refresh_loop_success (rm : refresh_mock) (fuel : nat) (st : cstate) :
  fst (refresh_loop rm fuel st) = None <->
  exists k, (k < fuel)%nat /\ rm (refresh_calls st + k)%nat = RCaptured.
Proof.
  revert st. induction fuel as [|f IH]; intros st; simpl.
  - split; [discriminate | intros [k [Hk _]]; lia].
  - destruct (rm (refresh_calls st)) eqn:E; simpl.
    + split; [intros _; exists 0%nat; rewrite Nat.add_0_r; split; [lia | exact E] | reflexivity].
    + all: idtac.
      rewrite IH. simpl. split.
      * intros [k [Hk Hr]]. exists (S k). split; [lia|]. rewrite <- Hr. f_equal. lia.
      * intros [[|k] [Hk Hr]]; [rewrite Nat.add_0_r, E in Hr; discriminate|].
        exists k. split; [lia|]. rewrite <- Hr. f_equal. lia.
    + rewrite IH. simpl. split.
      * intros [k [Hk Hr]]. exists (S k). split; [lia|]. rewrite <- Hr. f_equal. lia.
      * intros [[|k] [Hk Hr]]; [rewrite Nat.add_0_r, E in Hr; discriminate|].
        exists k. split; [lia|]. rewrite <- Hr. f_equal. lia.
Qed.

Lemma fetch_retry_fields (api : api_mock) (rm : refresh_mock) (fuel : nat) :
  forall n st, let st' := snd (fetch_retry api rm n fuel st) in
  exists ps, fetched st' = fetched st ++ ps /\ Forall (eq (current_page st)) ps /\
    (length ps <= MAX_API_RETRIES - n)%nat /\
    current_page st' = current_page st /\ users st' = users st.
Proof.
  induction fuel as [|f IH]; intros n st; cbn [fetch_retry].
  { exists []. rewrite app_nil_r. repeat split; [constructor | simpl; lia]. }
  destruct (Nat.ltb n MAX_API_RETRIES) eqn:Hn.
  2:{ exists []. rewrite app_nil_r. repeat split; [constructor | simpl; lia]. }
  apply Nat.ltb_lt in Hn. unfold MAX_API_RETRIES in *.
  destruct (api (fetched st) (current_page st)) as [d|s|].
  - exists [current_page st]. simpl. repeat split; [repeat constructor | lia].
  - destruct (s =? 502).
    + destruct (IH (S n) (cemit (record_fetch st) [ESleep 5])) as [ps [H1 [H2 [H3 [H4 H5]]]]].
      simpl in *. exists (current_page st :: ps).
      rewrite H1, <- app_assoc.
      repeat split; try assumption; [constructor; [reflexivity | assumption] | simpl; lia].
    + destruct (s =? 401).
      * pose proof (refresh_loop_fields rm 3 (cemit (record_fetch st) [ERefresh]))
          as [R1 [R2 [R3 _]]].
        unfold refresh_auth_headers.
        destruct (refresh_loop rm 3 (cemit (record_fetch st) [ERefresh])) as [[e|] st1].
        -- simpl in *. exists [current_page st].
           split; [exact R3|]. split; [repeat constructor|]. split; [simpl; lia|].
           split; assumption.
        -- simpl in *. destruct (IH (S n) st1) as [ps [H1 [H2 [H3 [H4 H5]]]]].
           exists (current_page st :: ps). rewrite H1, R3, <- app_assoc.
           repeat split; try congruence; [constructor; [reflexivity | rewrite <- R2; assumption]
                                         | simpl; lia].
      * exists [current_page st]. simpl. repeat split; [repeat constructor | lia].
  - exists [current_page st]. simpl. repeat split; [repeat constructor | lia].
Qed.

Lemma add_profiles_valid (ps : list (option string)) (us : gset string) :
  (forall h, h ∈ us -> clean_valid h) ->
  forall h, h ∈ add_profiles ps us -> clean_valid h.
Proof.
  unfold add_profiles. revert us. induction ps as [|p ps IH]; intros us Hus; cbn [fold_left];
    [exact Hus|].
  apply IH. destruct p as [h|]; [|exact Hus].
  destruct (Validator.validate_username (Validator.PStr (Validator.strip (Validator.replace_at h))))
    eqn:V; cbv iota; [|exact Hus].
  intros x Hx. apply elem_of_union in Hx as [Hx|Hx]; [|exact (Hus x Hx)].
  apply elem_of_singleton in Hx. subst x. split; [apply CleanFacts.clean_idem | exact V].
Qed.

Lemma page_loop_valid (api : api_mock) (rm : refresh_mock) (fuel : nat) :
  forall st, (forall h, h ∈ users st -> clean_valid h) ->
  let '(r, st') := page_loop api rm fuel st in
  (forall h, h ∈ users st' -> clean_valid h) /\ (forall us, r = CDone us -> us = users st').
Proof.
  induction fuel as [|f IH]; intros st Hv; cbn [page_loop].
  { split; [exact Hv | discriminate]. }
  destruct (current_page st <=? page_bound (total_pages st)).
  2:{ split; [exact Hv | intros us E; injection E as <-; reflexivity]. }
  pose proof (fetch_retry_fields api rm MAX_API_RETRIES 0 st) as [ps [_ [_ [_ [_ U]]]]].
  destruct (fetch_retry api rm 0 MAX_API_RETRIES st) as [[d|e|] st1]; simpl in U.
  2,3: split; [rewrite U; exact Hv | discriminate].
  assert (Hv1 : forall h, h ∈ users st1 -> clean_valid h) by (rewrite U; exact Hv).
  destruct d as [| |nt [profs|]].
  1,2,4: split; [exact Hv1 | discriminate].
  assert (Hv2 := add_profiles_valid profs (users st1) Hv1).
  match goal with
  | |- context [if ?c then _ else _] => destruct c
  end.
  - split; [exact Hv2 | intros us E; injection E as <-; reflexivity].
  - apply IH. exact Hv2.
Qed.

Lemma refresh_loop_total (rm : refresh_mock) (fuel : nat) (st : cstate) :
  total_pages (snd (refresh_loop rm fuel st)) = total_pages st.
Proof.
  revert st. induction fuel as [|f IH]; intros st; simpl; [reflexivity|].
  destruct (rm (refresh_calls st)); simpl; [reflexivity | rewrite IH; reflexivity
                                                        | rewrite IH; reflexivity].
Qed.

Lemma fetch_retry_total (api : api_mock) (rm : refresh_mock) (fuel : nat) :
  forall n st, total_pages (snd (fetch_retry api rm n fuel st)) = total_pages st.
Proof.
  induction fuel as [|f IH]; intros n st; cbn [fetch_retry]; [reflexivity|].
  destruct (Nat.ltb n MAX_API_RETRIES); [|reflexivity].
  destruct (api (fetched st) (current_page st)) as [d|s|]; [reflexivity| |reflexivity].
  destruct (s =? 502); [rewrite IH; reflexivity|].
  destruct (s =? 401); [|reflexivity].
  unfold refresh_auth_headers.
  pose proof (refresh_loop_total rm 3 (cemit (record_fetch st) [ERefresh])) as Ht.
  destruct (refresh_loop rm 3 (cemit (record_fetch st) [ERefresh])) as [[e|] st1];
    simpl in *; [exact Ht | rewrite IH; exact Ht].
Qed.

Lemma ceil_pages_div (n : Z) :
  PAGE_SIZE * (ceil_pages n - 1) < n <= PAGE_SIZE * ceil_pages n.
Proof.
  unfold ceil_pages, PAGE_SIZE.
  pose proof (Z.div_mod (- n) 20 ltac:(lia)).
  pose proof (Z.mod_pos_bound (- n) 20 ltac:(lia)).
  lia.
Qed.

End CollectorFacts.

Section InitExtras.
Import Init.

(** After a call to initialize_browser that succeeded, a second call,
    whatever its own Playwright calls do, never starts Playwright again.
    It launches another persistent context exactly when the first call
    launched one whose [browser] attribute was [None]; otherwise it does
    nothing and returns normally. *)
Theorem initialize_browser_second_call (env1 env2 : launch_env) (s s1 : bstate)
    (tr1 : list ievent) (H1 : initialize_browser env1 s = (None, s1, tr1)) :
  let '(e2, s2, tr2) := initialize_browser env2 s1 in
  ~ In IStart tr2 /\
  (In ILaunch tr2 <-> In ILaunch tr1 /\ reports_browser env1 = false) /\
  (~ In ILaunch tr2 -> e2 = None /\ s2 = s1 /\ tr2 = []).
Proof.
  destruct s as [p b c]; destruct env1 as [st l sc rb]; destruct env2 as [st' l' sc' rb'].
  unfold initialize_browser, launch_step in *; simpl in *.
  destruct p, b, c, st, l, sc, rb; simpl in H1; inversion H1; subst;
    destruct st', l', sc', rb'; simpl; intuition (try discriminate; try congruence).
Qed.

Lemma initialize_browser_second_call_witness :
  let env1 := mkL true true true false in
  let env2 := mkL true false true true in
  initialize_browser env1 (mkB false false false) =
    (None, mkB true false true, [IStart; ILaunch; IInitScript]) /\
  In ILaunch (snd (initialize_browser env2 (mkB true false true))) /\
  ~ In IStart (snd (initialize_browser env2 (mkB true false true))).
Proof.
  intros env1 env2. split; [reflexivity|].
  pose proof (initialize_browser_second_call env1 env2 (mkB false false false)
                (mkB true false true) [IStart; ILaunch; IInitScript] eq_refl) as H.
  destruct (initialize_browser env2 (mkB true false true)) as [[e2 s2] tr2].
  destruct H as [Hs [H _]]. split; [apply H; split; [simpl; tauto | reflexivity] | exact Hs].
Defined.

End InitExtras.

Section CookieExtras.
Import Cookies.

(** refresh_cookies calls verify_session exactly when an essential cookie
    is missing (an empty jar misses both), and it returns False only when
    that call raises: the cookies themselves never make it fail. *)
Theorem refresh_cookies_outcome (names : list string) (env : Session.page_env) :
  (snd (refresh_cookies (Some names) env) = true <-> missing_cookies names <> []) /\
  (fst (refresh_cookies (Some names) env) = false <->
     missing_cookies names <> [] /\ fst (Session.verify_session env) <> Session.VTrue).
Proof.
  unfold refresh_cookies.
  destruct (fst (Session.verify_session env)) as [|e] eqn:V.
  - destruct names as [|n ns]; [simpl; intuition discriminate|].
    destruct (missing_cookies (n :: ns)); simpl; intuition discriminate.
  - destruct names as [|n ns]; [simpl; intuition discriminate|].
    destruct (missing_cookies (n :: ns)); simpl; intuition discriminate.
Qed.

End CookieExtras.

Section RateLimitExtras.
Import RateLimit.

(** handle_rate_limit sleeps 60 s and then raises RateLimitError
    "Rate limited. Retry after 60 seconds", whatever headers the response
    carries: Playwright's [response.headers] has lower-cased names, so
    [get('Retry-After', '60')] always falls back to ['60']. *)
Theorem handle_rate_limit_sleeps_then_raises (hs : list (string * string)) :
  handle_rate_limit hs =
    ([ESleep 60], RateLimitError "Rate limited. Retry after 60 seconds").
Proof.
  unfold handle_rate_limit, retry_after_of. rewrite HeaderFacts.retry_after_is_60.
  reflexivity.
Qed.

End RateLimitExtras.

Section RunExtras.
Import Top.

(** run catches every exception of its body and always ends with one call
    to cleanup; it sleeps 5 s before that exactly when the escaping
    exception is a SessionError whose lowercased message lacks "timeout". *)
Theorem run_sleep_then_cleanup (ie : option exn) (env : BrowserCtx.ctx_env)
    (r : Cleanup.resources) :
  (In (TSleep 5) (fst (run ie env r)) <->
     exists m, run_escaped ie env = Some (SessionError m) /\
               PyStr.contains "timeout" (PyStr.lower m) = false) /\
  exists pre, fst (run ie env r) = pre ++ [TCleanup] /\ ~ In TCleanup pre.
Proof.
  unfold run.
  destruct (Cleanup.cleanup r) as [[[x r'] acts] l].
  destruct (run_escaped ie env) as [[m|m|m|]|];
    [destruct (PyStr.contains "timeout" (PyStr.lower m)) eqn:E | | | |]; simpl;
    (split; [split; [intros H | intros [m' [H H']]] |]);
    try (intuition congruence);
    try (exists []; split; [reflexivity | simpl; tauto]);
    try (exists [TSleep 5]; split; [reflexivity | simpl; intuition discriminate]).
  exists m. auto.
Qed.

(** When verify_session finds no login indicator, the login wait times out
    and the URL is neither a '/me' nor a '/profile' one, run goes straight
    to cleanup (the login-timeout message contains "timeout"); when the
    navigation to '/me' itself fails, it first sleeps 5 s. *)
Theorem run_session_failure (env : BrowserCtx.ctx_env) (r : Cleanup.resources)
    (Hc : BrowserCtx.has_context env = true) (Hp : BrowserCtx.new_page_ok env = true)
    (Hr : BrowserCtx.route_ok env = true)
    (Hf : forall k s, Session.found (BrowserCtx.session env) k s = false)
    (Hl : Session.login_done (BrowserCtx.session env) = false)
    (Hu : PyStr.contains "/me" (Session.url_after (BrowserCtx.session env)) ||
          PyStr.contains "/profile" (Session.url_after (BrowserCtx.session env)) = false) :
  fst (run None env r) =
    if Session.goto_ok (BrowserCtx.session env) then [TCleanup] else [TSleep 5; TCleanup].
Proof.
  unfold run, run_escaped, BrowserCtx.browser_context.
  rewrite Hc, Hp, Hr. simpl.
  destruct (Cleanup.cleanup r) as [[[x r'] acts] l].
  unfold Session.verify_session.
  destruct (Session.goto_ok (BrowserCtx.session env)); [|reflexivity].
  pose proof (SessionFacts.probe_rounds_none (BrowserCtx.session env) 3 0
                [Session.SGoto; Session.SSleep 2] Hf) as H.
  destruct (Session.probe_rounds (BrowserCtx.session env) 0 3 [Session.SGoto; Session.SSleep 2])
    as [ok tr]. simpl in H. subst ok. simpl.
  rewrite Hl, Hu. simpl.
  destruct (BrowserCtx.close_raises env); reflexivity.
Qed.

Lemma run_session_failure_witness :
  let env := BrowserCtx.mkCtx true None true true
               (Session.mkPageEnv true (fun _ _ => false) false "https://suno.com/login")
               None false in
  let r := Cleanup.mkRes (Some false) (Some false) (Some false) (Some false) in
  BrowserCtx.has_context env = true /\ BrowserCtx.new_page_ok env = true /\
  BrowserCtx.route_ok env = true /\
  (forall k s, Session.found (BrowserCtx.session env) k s = false) /\
  Session.login_done (BrowserCtx.session env) = false /\
  PyStr.contains "/me" (Session.url_after (BrowserCtx.session env)) ||
  PyStr.contains "/profile" (Session.url_after (BrowserCtx.session env)) = false /\
  fst (run None env r) = [TCleanup].
Proof.
  intros env r.
  do 3 (split; [reflexivity|]). split; [intros; reflexivity|].
  split; [reflexivity|]. split; [vm_compute; reflexivity|].
  exact (run_session_failure env r eq_refl eq_refl eq_refl (fun _ _ => eq_refl) eq_refl
           ltac:(vm_compute; reflexivity)).
Defined.

End RunExtras.

Section CollectorExtras.
Import Collector RetryFacts CollectorFacts.

(** Every handle get_users collects is already clean (no '@', no
    surrounding whitespace) and valid, and a finished collection returns
    exactly the set accumulated in its state. *)
Theorem get_users_clean_result (api : api_mock) (rm : refresh_mock) (ic : bool) (fuel : nat) :
  let '(r, st) := get_users api rm ic fuel in
  (forall h, h ∈ users st -> clean_valid h) /\ (forall us, r = CDone us -> us = users st).
Proof.
  unfold get_users. destruct ic.
  - apply page_loop_valid. intros h Hh. simpl in Hh. set_solver.
  - split; [intros h Hh; simpl in Hh; set_solver | discriminate].
Qed.

(** One fetch_retry requests only the page it was started on, at most
    three times, and leaves the page number and the collected users as
    they were. *)
Theorem fetch_retry_same_page (api : api_mock) (rm : refresh_mock) (st : cstate) :
  let st' := snd (fetch_retry api rm 0 MAX_API_RETRIES st) in
  exists ps, fetched st' = fetched st ++ ps /\ Forall (eq (current_page st)) ps /\
    (length ps <= 3)%nat /\ current_page st' = current_page st /\ users st' = users st.
Proof. exact (fetch_retry_fields api rm MAX_API_RETRIES 0 st). Qed.

(** refresh_auth_headers succeeds exactly when one of its three attempts
    captures the headers, and makes at most three attempts. *)
Theorem refresh_auth_headers_outcome (rm : refresh_mock) (st : cstate) :
  (fst (refresh_auth_headers rm st) = None <->
     exists k, (k < 3)%nat /\ rm (refresh_calls st + k)%nat = RCaptured) /\
  (refresh_calls (snd (refresh_auth_headers rm st)) <= refresh_calls st + 3)%nat.
Proof.
  unfold refresh_auth_headers. split.
  - exact (refresh_loop_success rm 3 (cemit st [ERefresh])).
  - pose proof (refresh_loop_fields rm 3 (cemit st [ERefresh])) as [_ [_ [_ H]]].
    exact (proj2 H).
Qed.

(** [-(-n // 20)] is the ceiling of n / 20: the pages hold all profiles
    and the last one is not empty, for any integer n. *)
Theorem ceil_pages_bounds (n : Z) :
  PAGE_SIZE * (ceil_pages n - 1) < n <= PAGE_SIZE * ceil_pages n.
Proof. exact (ceil_pages_div n). Qed.

(** A listing whose first page declares at most 20 profiles (0 or a
    negative count included) is read in one page: however many 502 or 401
    answers came before page 1 was obtained, get_users requests no page but
    page 1 and returns the valid handles of that page. *)
Theorem get_users_single_page (api : api_mock) (rm : refresh_mock) (fuel : nat)
    (nt : Z) (ps : list (option string)) (st1 : cstate)
    (H1 : fetch_retry api rm 0 MAX_API_RETRIES (cemit initial_state [EInitialHarvest]) =
          (Got (RDict (Some nt) (Some ps)), st1))
    (Hn : nt <= 20) (Hf : (2 <= fuel)%nat) :
  fst (get_users api rm true fuel) = CDone (add_profiles ps ∅) /\
  Forall (eq 1) (fetched (snd (get_users api rm true fuel))) /\
  (length (fetched (snd (get_users api rm true fuel))) <= 3)%nat.
Proof.
  assert (Hb : page_bound (Some (ceil_pages nt)) <= 1).
  { pose proof (ceil_pages_div nt) as Hc. unfold PAGE_SIZE in Hc.
    destruct (ceil_pages nt) as [|p|p] eqn:E; simpl; lia. }
  set (st0 := cemit initial_state [EInitialHarvest]) in *.
  pose proof (fetch_retry_fields api rm MAX_API_RETRIES 0 st0) as [ps' [F1 [F2 [F3 [F4 F5]]]]].
  pose proof (fetch_retry_total api rm MAX_API_RETRIES 0 st0) as F6.
  rewrite H1 in F1, F4, F5, F6. simpl in F1, F2, F3, F4, F5, F6.
  destruct fuel as [|[|f]]; [lia|lia|].
  unfold get_users. fold st0. cbn [page_loop].
  change (current_page st0 <=? page_bound (total_pages st0)) with (1 <=? 1).
  rewrite Z.leb_refl, H1. cbv beta iota.
  rewrite F4, F5, F6. cbv beta iota.
  rewrite Z.ltb_irrefl, andb_false_r.
  cbn [page_loop current_page total_pages users fetched].
  destruct (Z.leb_spec (1 + 1) (page_bound (Some (ceil_pages nt)))) as [Hc|Hc]; [lia|].
  simpl. rewrite F1. split; [reflexivity|]. split; [exact F2 | exact F3].
Qed.

Lemma get_users_single_page_witness :
  let ps := [Some "@ab "%string; None; Some "x"%string] in
  let api : api_mock := fun h _ =>
    if Nat.eqb (length h) 0 then FHttp 502 else FOk (RDict (Some 0) (Some ps)) in
  fetch_retry api (fun _ => RCaptured) 0 MAX_API_RETRIES (cemit initial_state [EInitialHarvest]) =
    (Got (RDict (Some 0) (Some ps)),
     mkC ∅ 1 None [1; 1] 0 [EInitialHarvest; EFetch 1; ESleep 5; EFetch 1]) /\
  0 <= 20 /\ (2 <= 5)%nat /\
  fst (get_users api (fun _ => RCaptured) true 5) = CDone (add_profiles ps ∅) /\
  Forall (eq 1) (fetched (snd (get_users api (fun _ => RCaptured) true 5))) /\
  (length (fetched (snd (get_users api (fun _ => RCaptured) true 5))) <= 3)%nat.
Proof.
  intros ps api.
  assert (H : fetch_retry api (fun _ => RCaptured) 0 MAX_API_RETRIES
                (cemit initial_state [EInitialHarvest]) =
              (Got (RDict (Some 0) (Some ps)),
               mkC ∅ 1 None [1; 1] 0 [EInitialHarvest; EFetch 1; ESleep 5; EFetch 1]))
    by (vm_compute; reflexivity).
  split; [exact H|]. split; [lia|]. split; [lia|].
  exact (get_users_single_page api (fun _ => RCaptured) 5 0 ps _ H ltac:(lia) ltac:(lia)).
Defined.

End CollectorExtras.

Section CleanupExtras.
Import Cleanup.

(** When [playwright.stop()] does not raise, one cleanup call clears all
    four attributes and logs completion (page and context close errors
    are swallowed), and a second call then does nothing at all. *)
Theorem cleanup_success_idempotent (r : resources) (H : playwright r <> Some true) :
  let '(e1, r1, _, l1) := cleanup r in
  e1 = None /\ r1 = mkRes None None None None /\ l1 = LCompleted /\
  cleanup r1 = (None, r1, [], LCompleted).
Proof.
  destruct r as [p c b w].
  destruct p as [[]|], c as [[]|], b as [[]|], w as [[]|]; simpl in *;
    try congruence; repeat split.
Qed.

Lemma cleanup_success_idempotent_witness :
  let r := mkRes (Some true) (Some true) (Some false) (Some false) in
  playwright r <> Some true /\
  cleanup (mkRes None None None None) = (None, mkRes None None None None, [], LCompleted).
Proof.
  intros r.
  assert (H : playwright r <> Some true) by discriminate.
  split; [exact H|].
  pose proof (cleanup_success_idempotent r H) as C.
  destruct (cleanup r) as [[[e1 r1] acts] l1].
  destruct C as [_ [Hr [_ Hc]]]. rewrite Hr in Hc. exact Hc.
Defined.

End CleanupExtras.

Section UnfollowExtras.
Import Unfollow RunView.

(** One unfollow_user call sends at most MAX_RETRIES (3) unfollow POSTs,
    all of them for the handle it was given. *)
Theorem unfollow_user_post_bound (orc : oracle) (u : string) (b : bot) :
  exists ext, trace (snd (unfollow_user orc u b)) = trace b ++ ext /\
    Forall (posts_within (eq u)) ext /\ (count_if is_post ext <= MAX_RETRIES)%nat.
Proof.
  pose proof (UnfollowFacts.unfollow_user_shape orc u b) as H.
  destruct (unfollow_user orc u b) as [ok b'].
  destruct H as [[ext [E [F [_ C]]]] _]. exists ext. auto.
Qed.

(** unfollow_user returns True exactly when the handle is in
    processed_users afterwards, and it adds nothing else to that set. *)
Theorem unfollow_user_result_recorded (orc : oracle) (u : string) (b : bot) :
  fst (unfollow_user orc u b) = bool_decide (u ∈ processed_users (snd (unfollow_user orc u b))) /\
  processed_users (snd (unfollow_user orc u b)) =
    (if fst (unfollow_user orc u b) then {[u]} ∪ processed_users b else processed_users b).
Proof.
  pose proof (UnfollowFacts.unfollow_user_shape orc u b) as H.
  destruct (unfollow_user orc u b) as [ok b'].
  destruct H as [_ [P R]]. split; assumption.
Qed.

End UnfollowExtras.

Section RunTraceExtras.
Import Unfollow Run RunView.

(** find_and_unfollow_nonreciprocal sends unfollow POSTs only for handles
    the account follows that do not follow it back. *)
Theorem find_and_unfollow_posts_only_targets (orc : oracle) (following followers : list string)
    (b : bot) (old : string) :
  exists ext, trace (rbot (find_and_unfollow orc following followers b old)) = trace b ++ ext /\
    Forall (posts_within (fun h => h ∈ reconcile following followers)) ext.
Proof.
  destruct (RunFacts.find_and_unfollow_shape orc following followers b old) as [ext [E [F _]]].
  exists ext. auto.
Qed.

(** Between the chunks of 5 handles it pauses 60-120 s, (n - 1) / 5
    times for n handles to unfollow (none for n = 0); unfollow_user never
    makes such a pause itself. *)
Theorem find_and_unfollow_batch_pauses (orc : oracle) (following followers : list string)
    (b : bot) (old : string) :
  exists ext, trace (rbot (find_and_unfollow orc following followers b old)) = trace b ++ ext /\
    count_if is_pause ext = ((size (reconcile following followers) - 1) / 5)%nat.
Proof.
  destruct (RunFacts.find_and_unfollow_shape orc following followers b old) as [ext [E [_ C]]].
  exists ext. auto.
Qed.

End RunTraceExtras.
